(** * LiveClient: session and media-pipeline controller

    A shallow embedding of [src/liveClient.ts] (class [LiveClient]) and of
    the handlers of [src/App.tsx] that drive it, with the properties of the
    controller proved over it.

    Conventions of the embedding.
    - A method of the class is a function from the client's fields to the
      new fields and the list of observable effects it performed, in order
      (callback invocations, calls on browser and transport objects).
    - What a method reads from the outside (the wall clock, the outcome of
      an awaited promise, whether a browser call throws) is an argument.
    - An [async] method is cut at its [await]: the part before it and the
      continuation are separate functions, and the continuation runs on
      whatever the fields are when it resumes. *)

From Stdlib Require Import ZArith NArith QArith List String Ascii Bool Lia.
From Stdlib Require Import DecimalString DecimalN Lqa Sorted.
Import ListNotations.

Local Open Scope string_scope.
Local Open Scope list_scope.

(** ** JavaScript numbers as the encoder sees them *)

(** A value of a [Float32Array] read as a JS number: a finite value (a
    rational; the sign of zero plays no part below), an infinity or NaN.
    The encoder multiplies a clamped 24-bit value by a 15- or 16-bit
    constant, which binary64 does exactly, so products are exact. *)
Inductive number : Type :=
| Finite (q : Q)
| PosInfinity
| NegInfinity
| NaN.

(** [Math.min(a, b)]: NaN if either is NaN. *)
Definition Math_min (a b : number) : number :=
  match a, b with
  | NaN, _ | _, NaN => NaN
  | NegInfinity, _ | _, NegInfinity => NegInfinity
  | PosInfinity, x | x, PosInfinity => x
  | Finite p, Finite q => if Qle_bool p q then Finite p else Finite q
  end.

(** [Math.max(a, b)]: NaN if either is NaN. *)
Definition Math_max (a b : number) : number :=
  match a, b with
  | NaN, _ | _, NaN => NaN
  | PosInfinity, _ | _, PosInfinity => PosInfinity
  | NegInfinity, x | x, NegInfinity => x
  | Finite p, Finite q => if Qle_bool p q then Finite q else Finite p
  end.

(** [a < b]: false as soon as one side is NaN. *)
Definition number_ltb (a b : number) : bool :=
  match a, b with
  | NaN, _ | _, NaN => false
  | _, NegInfinity => false
  | NegInfinity, _ => true
  | PosInfinity, _ => false
  | _, PosInfinity => true
  | Finite p, Finite q => negb (Qle_bool q p)
  end.

(** The sign of a number, for products with an infinity. *)
Definition number_sign (a : number) : comparison :=
  match a with
  | Finite q => (0 ?= q)%Q
  | PosInfinity => Lt
  | NegInfinity => Gt
  | NaN => Eq
  end.

(** [a * b]. *)
Definition number_mul (a b : number) : number :=
  match a, b with
  | NaN, _ | _, NaN => NaN
  | Finite p, Finite q => Finite (p * q)
  | _, _ =>
      match number_sign a, number_sign b with
      | Eq, _ | _, Eq => NaN
      | Lt, Lt | Gt, Gt => PosInfinity
      | _, _ => NegInfinity
      end
  end.

(** Truncation toward zero of a rational. *)
Definition truncate (q : Q) : Z := Z.quot (Qnum q) (Z.pos (Qden q)).

(** [ToInt16]: what storing a number into an [Int16Array] keeps. Not
    finite gives 0; otherwise truncate, reduce modulo 2^16 and read the
    16 bits as signed. *)
Definition ToInt16 (x : number) : Z :=
  match x with
  | Finite q =>
      let m := (truncate q mod 65536)%Z in
      if (32768 <=? m)%Z then (m - 65536)%Z else m
  | _ => 0%Z
  end.

(** ** createPcmBlob *)

(** The body of the first loop of [createPcmBlob] for one sample. *)
Definition encodeSample (x : number) : Z :=
  let s := Math_max (Finite (-1)) (Math_min (Finite 1) x) in
  ToInt16 (if number_ltb s (Finite 0)
           then number_mul s (Finite 32768)    (* 0x8000 *)
           else number_mul s (Finite 32767)).  (* 0x7FFF *)

(** The [Int16Array] the first loop fills. *)
Definition pcm16 (data : list number) : list Z := map encodeSample data.

(** [new Uint8Array(int16.buffer)]: two bytes per sample, low byte first. *)
Definition int16_bytes (v : Z) : list N :=
  let u := (v mod 65536)%Z in
  [Z.to_N (u mod 256); Z.to_N (u / 256)].

Definition Uint8Array_of_int16 (int16 : list Z) : list N :=
  flat_map int16_bytes int16.

(** The second loop: [binary += String.fromCharCode(bytes[i])]. *)
Definition binaryString (bytes : list N) : string :=
  string_of_list_ascii (map ascii_of_N bytes).

Definition b64alphabet : list ascii :=
  list_ascii_of_string
    "ABCDEFGHIJKLMNOPQRSTUVWXYZabcdefghijklmnopqrstuvwxyz0123456789+/".

Definition b64digit (n : N) : ascii :=
  nth (N.to_nat (n mod 64)) b64alphabet "="%char.

(** Base64 of a byte sequence, padded with [=]. *)
Fixpoint base64 (bytes : list N) : list ascii :=
  match bytes with
  | [] => []
  | [a] =>
      let w := (a * 65536)%N in
      [b64digit (w / 262144); b64digit (w / 4096); "="%char; "="%char]
  | [a; b] =>
      let w := (a * 65536 + b * 256)%N in
      [b64digit (w / 262144); b64digit (w / 4096); b64digit (w / 64);
       "="%char]
  | a :: b :: c :: rest =>
      let w := (a * 65536 + b * 256 + c)%N in
      b64digit (w / 262144) :: b64digit (w / 4096) :: b64digit (w / 64)
        :: b64digit w :: base64 rest
  end.

(** The browser's [btoa] on a binary string. *)
Definition btoa (binary : string) : string :=
  string_of_list_ascii (base64 (map N_of_ascii (list_ascii_of_string binary))).

(** [Number.prototype.toString] on a natural number: its decimal digits. *)
Definition toString (n : N) : string := NilEmpty.string_of_uint (N.to_uint n).

(** The media chunk handed to [sendRealtimeInput]. *)
Record Blob : Type := mkBlob { data : string; mimeType : string }.

Definition createPcmBlob (samples : list number) (sampleRate : N) : Blob :=
  let int16 := pcm16 samples in
  let bytes := Uint8Array_of_int16 int16 in
  let binary := binaryString bytes in
  {| data := btoa binary;
     mimeType := ("audio/pcm;rate=" ++ toString sampleRate)%string |}.

(** Modelled from the spec: [decodeAudioData] of [utils/audio] is not among
    the sources. The spec names the decoding of the 16-bit format only as
    the way back from the encoder ("round-trip decode"); the sample-level
    inverse of the encoder's scaling is taken: two bytes, low byte first,
    read as a signed 16-bit value and divided by 32768. *)
Definition int16_of_bytes (lo hi : N) : Z :=
  let u := (Z.of_N lo + 256 * Z.of_N hi)%Z in
  if (32768 <=? u)%Z then (u - 65536)%Z else u.

Fixpoint Int16Array_of_bytes (bytes : list N) : list Z :=
  match bytes with
  | lo :: hi :: rest => int16_of_bytes lo hi :: Int16Array_of_bytes rest
  | _ => []
  end.

Definition decodeSample (v : Z) : number := Finite (Qred (v # 32768)).

Definition decodePcm16 (bytes : list N) : list number :=
  map decodeSample (Int16Array_of_bytes bytes).

(** The encoding as the specification words it, for a finite sample:
    clamp to [-1, 1], scale a negative value by 32768 and any other by
    32767, keep the integer part. *)
Definition clamp (q : Q) : Q :=
  if Qle_bool 1 q then 1%Q else if Qle_bool (-1) q then q else (-1)%Q.

Definition scale (s : Q) : Q :=
  if Qle_bool 0 s then (s * 32767)%Q else (s * 32768)%Q.

Definition spec_encode (x : number) : Z :=
  match x with
  | Finite q => truncate (scale (clamp q))
  | PosInfinity => 32767%Z
  | NegInfinity => (-32768)%Z
  | NaN => 0%Z
  end.

(** ** Time *)

(** Times on the output clock are JS numbers too, but the scheduler only
    compares and adds them. The type of times is kept abstract, with the
    comparison [<], the addition (rounded as the machine rounds it), zero,
    and the length in seconds of [n] frames at a given rate. *)
Class Clock (T : Type) : Type := {
  t_zero : T;
  t_plus : T -> T -> T;
  t_ltb : T -> T -> bool;
  t_seconds : N -> positive -> T
}.

(** [a <= b] for times that are not NaN: not [b < a]. *)
Definition t_le {T : Type} `{Clock T} (a b : T) : Prop := t_ltb b a = false.

(** What the properties of the scheduler use of the order and of the
    addition. Rounded addition of finite or infinite binary64 values
    satisfies them, and so does exact arithmetic. *)
Class ClockLaws (T : Type) `{Clock T} : Prop := {
  t_ltb_irrefl : forall a, t_ltb a a = false;
  t_ltb_asym : forall a b, t_ltb a b = true -> t_ltb b a = false;
  t_le_trans : forall a b c, t_le a b -> t_le b c -> t_le a c;
  t_plus_nonneg : forall a d, t_le t_zero d -> t_le a (t_plus a d);
  t_seconds_nonneg : forall n r, t_le t_zero (t_seconds n r)
}.

(** Exact rational seconds. *)
#[export] Instance Q_clock : Clock Q := {|
  t_zero := 0%Q;
  t_plus := Qplus;
  t_ltb := fun a b => negb (Qle_bool b a);
  t_seconds := fun n r => (Z.of_N n # r)%Q
|}.

(** ** Data model *)

(** [ConnectionState] of [types.ts]. *)
Inductive ConnectionState : Type :=
| DISCONNECTED
| CONNECTING
| CONNECTED
| ERROR.

(** The [source] of an entry: ['user'], ['ai'], ['system'] or ['error']. *)
Inductive LogSource : Type := from_user | from_ai | from_system | from_error.

(** [LogEntry] of [types.ts]; [log_type] is the optional [type] field. *)
Record LogEntry : Type := mkLog {
  log_id : string;
  log_timestamp : N;
  log_source : LogSource;
  log_message : string;
  log_type : option string
}.

(** A call that returns or throws. *)
Inductive Outcome (A : Type) : Type :=
| Returns (a : A)
| Throws (message : string).
Arguments Returns {A} a.
Arguments Throws {A} message.

(** The value passed to [onVolume]. *)
Inductive Loudness : Type :=
| Level (q : Q)
| Rms (block : list number).

(** The object assigned to [result] in [handleToolCall]. *)
Inductive ToolResult : Type :=
| StatusOk                    (* { status: 'ok' } *)
| Result (text : string)      (* { result: ... } *)
| Time (time : string)        (* { time } *)
| Error (message : string).   (* { error: e.message } *)

(** One entry of [toolCall.functionCalls]; [fc_args] is absent when the
    request carries no [args] object. *)
Record FunctionCall : Type := mkCall {
  fc_id : string;
  fc_name : string;
  fc_args : option (list (string * string))
}.

(** The parts of a [LiveServerMessage] that [handleMessage] reads;
    [inlineData] is [serverContent.modelTurn.parts[0].inlineData.data]. *)
Record LiveServerMessage : Type := mkMessage {
  inlineData : option string;
  interrupted : bool;
  turnComplete : bool;
  toolCall : option (list FunctionCall)
}.

(** A resolved session of the transport: whether each of its two send
    calls throws, and with which message. *)
Record Session : Type := mkSession {
  sendRealtimeInput_throws : option string;
  sendToolResponse_throws : option string
}.

(** How the promise kept in [currentSession] settles; [Pending] is a
    promise that does not settle. *)
Inductive SessionPromise : Type :=
| Fulfilled (session : Session)
| Rejected (reason : string)
| Pending.

(** An [AudioBuffer]: [duration] is [length / sampleRate]. *)
Record AudioBuffer : Type := mkBuffer {
  buf_length : N;
  buf_sampleRate : positive
}.

(** An [AudioBufferSourceNode]; [node] is the identity of the object. *)
Record AudioBufferSourceNode : Type := mkSource {
  node : nat;
  buffer : AudioBuffer
}.

(** What the browser does when a tool handler calls it. *)
Record Browser : Type := mkBrowser {
  window_open : string -> Outcome unit;
  dispatchEvent : string -> Outcome unit;
  toLocaleString : string
}.

(** What [connect] meets on its way: the constructors, the microphone
    request and the promise [ai.live.connect] returns. *)
Record ConnectEnv (T : Type) : Type := mkConnectEnv {
  newGoogleGenAI : Outcome unit;
  newInputContext : Outcome (N * T);
  newOutputContext : Outcome (N * T);
  getUserMedia : Outcome nat;
  liveConnect : SessionPromise
}.
Arguments newGoogleGenAI {T} _.
Arguments newInputContext {T} _.
Arguments newOutputContext {T} _.
Arguments getUserMedia {T} _.
Arguments liveConnect {T} _.

(** ** The controller *)

Section LiveClient.

Context {T : Type} {clock : Clock T}.

(** An [AudioContext]: its actual sample rate and the reading of its
    clock. The clock runs on its own; [tick] below moves it. *)
Record AudioContext : Type := mkContext {
  sampleRate : N;
  currentTime : T
}.

(** What a method does that the outside can see, in the order done. *)
Inductive Effect : Type :=
| OnStateChange (state : ConnectionState)
| OnLog (log : LogEntry)
| OnVolume (vol : Loudness)
| OnToolAction (action : string)
| ConsoleError (label : string)
| NewAudioContext (requestedRate : N)
| GetUserMedia
| LiveConnect
| CreateScriptProcessor (stream : nat)
| SendRealtimeInput (media : Blob)
| SendToolResponse (id name : string) (response : ToolResult)
| WindowOpen (url : string)
| ThemeChange (mode : string)
| SourceStart (source : AudioBufferSourceNode) (when : T)
| SourceStop (source : AudioBufferSourceNode)
| ProcessorDisconnect
| InputSourceDisconnect
| ContextClose (ctx : AudioContext).

(** The private fields of [LiveClient]. [ai], [inputSource] and
    [processor] only record whether the field is non-null ([inputSource]
    with the stream it was made from); [sources] is the [Set] in insertion
    order; [created] counts the source nodes made so far and gives each
    new object its identity. *)
Record LiveClient : Type := mkClient {
  ai : bool;
  inputAudioContext : option AudioContext;
  outputAudioContext : option AudioContext;
  inputSource : option nat;
  processor : bool;
  nextStartTime : T;
  sources : list AudioBufferSourceNode;
  currentSession : option SessionPromise;
  created : nat
}.

(** The field initialisers. *)
Definition newLiveClient : LiveClient :=
  {| ai := false;
     inputAudioContext := None;
     outputAudioContext := None;
     inputSource := None;
     processor := false;
     nextStartTime := t_zero;
     sources := [];
     currentSession := None;
     created := 0 |}.

(** The output clock reaches [now] (no effect without an output context). *)
Definition tick (now : T) (st : LiveClient) : LiveClient :=
  {| ai := ai st;
     inputAudioContext := inputAudioContext st;
     outputAudioContext :=
       option_map (fun ctx => {| sampleRate := sampleRate ctx;
                                 currentTime := now |})
                  (outputAudioContext st);
     inputSource := inputSource st;
     processor := processor st;
     nextStartTime := nextStartTime st;
     sources := sources st;
     currentSession := currentSession st;
     created := created st |}.

(** [buffer.duration]. *)
Definition duration (b : AudioBuffer) : T :=
  t_seconds (buf_length b) (buf_sampleRate b).

(** An entry built as [{ id: Date.now().toString(), timestamp: new Date(),
    source, message }], both reads of the wall clock giving [now]. *)
Definition logEntry (now : N) (source : LogSource) (message : string)
  : LogEntry :=
  {| log_id := toString now;
     log_timestamp := now;
     log_source := source;
     log_message := message;
     log_type := None |}.

(** [message || fallback] on strings. *)
Definition orElse (message fallback : string) : string :=
  if String.eqb message "" then fallback else message.

(** *** Playback scheduler *)

Definition sameNode (a b : AudioBufferSourceNode) : bool :=
  Nat.eqb (node a) (node b).

(** [Set.prototype.add]. *)
Definition Set_add (s : AudioBufferSourceNode)
  (set : list AudioBufferSourceNode) : list AudioBufferSourceNode :=
  if existsb (sameNode s) set then set else set ++ [s].

(** [Set.prototype.delete]. *)
Definition Set_delete (s : AudioBufferSourceNode)
  (set : list AudioBufferSourceNode) : list AudioBufferSourceNode :=
  filter (fun x => negb (sameNode s x)) set.

Definition playAudio (buffer : AudioBuffer) (st : LiveClient)
  : LiveClient * list Effect :=
  match outputAudioContext st with
  | None => (st, [])
  | Some ctx =>
      let source := {| node := created st; buffer := buffer |} in
      let currentTime := currentTime ctx in
      let start :=
        if t_ltb (nextStartTime st) currentTime
        then currentTime else nextStartTime st in
      ({| ai := ai st;
          inputAudioContext := inputAudioContext st;
          outputAudioContext := outputAudioContext st;
          inputSource := inputSource st;
          processor := processor st;
          nextStartTime := t_plus start (duration buffer);
          sources := Set_add source (sources st);
          currentSession := currentSession st;
          created := S (created st) |},
       [SourceStart source start])
  end.

(** The [onended] handler that [playAudio] installs on [source]. *)
Definition onended (source : AudioBufferSourceNode) (st : LiveClient)
  : LiveClient * list Effect :=
  let remaining := Set_delete source (sources st) in
  ({| ai := ai st;
      inputAudioContext := inputAudioContext st;
      outputAudioContext := outputAudioContext st;
      inputSource := inputSource st;
      processor := processor st;
      nextStartTime := nextStartTime st;
      sources := remaining;
      currentSession := currentSession st;
      created := created st |},
   if Nat.eqb (List.length remaining) 0 then [OnVolume (Level 0)] else []).

(** [try { s.stop(); } catch(e) {}]: the call is made, and what it throws
    is dropped. [stop] tells how the node answers. *)
Definition tryStop (stop : AudioBufferSourceNode -> Outcome unit)
  (s : AudioBufferSourceNode) : list Effect :=
  match stop s with
  | Returns _ => [SourceStop s]
  | Throws _ => [SourceStop s]
  end.

Definition stopAllAudio (stop : AudioBufferSourceNode -> Outcome unit)
  (st : LiveClient) : LiveClient * list Effect :=
  ({| ai := ai st;
      inputAudioContext := inputAudioContext st;
      outputAudioContext := outputAudioContext st;
      inputSource := inputSource st;
      processor := processor st;
      nextStartTime :=
        match outputAudioContext st with
        | Some ctx => currentTime ctx
        | None => nextStartTime st
        end;
      sources := [];
      currentSession := currentSession st;
      created := created st |},
   flat_map (tryStop stop) (sources st) ++ [OnVolume (Level 0)]).

(** A decoded payload reaching [playAudio] when the output clock reads
    [fst p]. *)
Definition schedule (p : T * AudioBuffer) (st : LiveClient)
  : LiveClient * list Effect :=
  playAudio (snd p) (tick (fst p) st).

(** A sequence of payloads scheduled one after the other, with nothing
    else in between. *)
Fixpoint scheduleAll (ps : list (T * AudioBuffer)) (st : LiveClient)
  : LiveClient * list Effect :=
  match ps with
  | [] => (st, [])
  | p :: rest =>
      let (st1, first) := schedule p st in
      let (st2, others) := scheduleAll rest st1 in
      (st2, first ++ others)
  end.

(** The start time and the duration of every buffer started in a trace. *)
Definition started (e : Effect) : list (T * T) :=
  match e with
  | SourceStart source when => [(when, duration (buffer source))]
  | _ => []
  end.

Definition starts (es : list Effect) : list (T * T) := flat_map started es.

(** The schedule as the specification words it: with [free] the next free
    time, a payload arriving at clock [now] starts at the greater of [now]
    and [free], and the next free time becomes that start plus the
    buffer's duration. *)
Inductive Scheduled : T -> list (T * AudioBuffer) -> list (T * T) -> Prop :=
| Scheduled_nil (free : T) : Scheduled free [] []
| Scheduled_cons (free now start : T) (b : AudioBuffer)
    (rest : list (T * AudioBuffer)) (out : list (T * T)) :
    t_le now start ->
    t_le free start ->
    start = now \/ start = free ->
    Scheduled (t_plus start (duration b)) rest out ->
    Scheduled free ((now, b) :: rest) ((start, duration b) :: out).

(** Two consecutive entries of a schedule do not overlap. *)
Definition noOverlap (a b : T * T) : Prop :=
  t_le (t_plus (fst a) (snd a)) (fst b).

(** Two consecutive entries of a schedule start in order. *)
Definition inOrder (a b : T * T) : Prop := t_le (fst a) (fst b).

(** *** disconnect *)

Definition closeContext (ctx : option AudioContext) : list Effect :=
  match ctx with
  | Some c => [ContextClose c]
  | None => []
  end.

Definition disconnect (stop : AudioBufferSourceNode -> Outcome unit)
  (st : LiveClient) : LiveClient * list Effect :=
  let (st1, stopped) := stopAllAudio stop st in
  ({| ai := false;
      inputAudioContext := None;
      outputAudioContext := None;
      inputSource := None;
      processor := false;
      nextStartTime := nextStartTime st1;
      sources := sources st1;
      currentSession := None;
      created := created st1 |},
   stopped
   ++ (if processor st1 then [ProcessorDisconnect] else [])
   ++ (match inputSource st1 with
       | Some _ => [InputSourceDisconnect]
       | None => []
       end)
   ++ closeContext (inputAudioContext st1)
   ++ closeContext (outputAudioContext st1)).

(** The effects of a teardown: stopping sources, reporting a loudness,
    disconnecting the capture nodes, closing a context. *)
Definition isTeardown (e : Effect) : bool :=
  match e with
  | SourceStop _ | OnVolume _ | ProcessorDisconnect | InputSourceDisconnect
  | ContextClose _ => true
  | _ => false
  end.

(** The effects by which a connection is set up: the announcement of
    Connecting, the new audio contexts, the microphone request and the
    opening of the transport. *)
Definition isSetup (e : Effect) : bool :=
  match e with
  | OnStateChange CONNECTING | NewAudioContext _ | GetUserMedia
  | LiveConnect => true
  | _ => false
  end.

(** *** connect and the transport callbacks *)

Definition withAi (v : bool) (st : LiveClient) : LiveClient :=
  {| ai := v;
     inputAudioContext := inputAudioContext st;
     outputAudioContext := outputAudioContext st;
     inputSource := inputSource st;
     processor := processor st;
     nextStartTime := nextStartTime st;
     sources := sources st;
     currentSession := currentSession st;
     created := created st |}.

Definition withInputContext (ctx : AudioContext) (st : LiveClient)
  : LiveClient :=
  {| ai := ai st;
     inputAudioContext := Some ctx;
     outputAudioContext := outputAudioContext st;
     inputSource := inputSource st;
     processor := processor st;
     nextStartTime := nextStartTime st;
     sources := sources st;
     currentSession := currentSession st;
     created := created st |}.

Definition withOutputContext (ctx : AudioContext) (st : LiveClient)
  : LiveClient :=
  {| ai := ai st;
     inputAudioContext := inputAudioContext st;
     outputAudioContext := Some ctx;
     inputSource := inputSource st;
     processor := processor st;
     nextStartTime := nextStartTime st;
     sources := sources st;
     currentSession := currentSession st;
     created := created st |}.

Definition withSession (p : SessionPromise) (st : LiveClient) : LiveClient :=
  {| ai := ai st;
     inputAudioContext := inputAudioContext st;
     outputAudioContext := outputAudioContext st;
     inputSource := inputSource st;
     processor := processor st;
     nextStartTime := nextStartTime st;
     sources := sources st;
     currentSession := Some p;
     created := created st |}.

Definition asContext (made : N * T) : AudioContext :=
  {| sampleRate := fst made; currentTime := snd made |}.

(** The statements of the [try] block of [connect] before its [await]:
    the client and the two audio contexts are made, then the microphone is
    asked for. The first constructor that throws ends the block. *)
Definition connect_setup (env : ConnectEnv T) (st : LiveClient)
  : LiveClient * list Effect * Outcome unit :=
  match newGoogleGenAI env with
  | Throws m => (st, [], Throws m)
  | Returns _ =>
      let st1 := withAi true st in
      match newInputContext env with
      | Throws m => (st1, [NewAudioContext 16000], Throws m)
      | Returns cin =>
          let st2 := withInputContext (asContext cin) st1 in
          match newOutputContext env with
          | Throws m =>
              (st2, [NewAudioContext 16000; NewAudioContext 24000], Throws m)
          | Returns cout =>
              (withOutputContext (asContext cout) st2,
               [NewAudioContext 16000; NewAudioContext 24000; GetUserMedia],
               Returns tt)
          end
      end
  end.

(** The [catch] block of [connect]. *)
Definition connect_catch (stop : AudioBufferSourceNode -> Outcome unit)
  (now : N) (message : string) (st : LiveClient) : LiveClient * list Effect :=
  let (st', torn) := disconnect stop st in
  (st',
   [ConsoleError "Connection failed";
    OnStateChange ERROR;
    OnLog (logEntry now from_error (orElse message "Connection failed"))]
   ++ torn).

(** [connect] up to [await getUserMedia]; the boolean tells whether it is
    suspended there (otherwise it has finished through [catch]). *)
Definition connect_begin (env : ConnectEnv T)
  (stop : AudioBufferSourceNode -> Outcome unit) (now : N) (st : LiveClient)
  : LiveClient * list Effect * bool :=
  match connect_setup env st with
  | (st1, made, Returns _) =>
      (st1, OnStateChange CONNECTING :: made, true)
  | (st1, made, Throws m) =>
      let (st2, caught) := connect_catch stop now m st1 in
      (st2, OnStateChange CONNECTING :: made ++ caught, false)
  end.

(** [connect] from the [await] on, on the fields as they are by then:
    [this.ai.live.connect] throws when [ai] has been cleared meanwhile. *)
Definition connect_resume (env : ConnectEnv T)
  (stop : AudioBufferSourceNode -> Outcome unit) (now : N) (st : LiveClient)
  : LiveClient * list Effect :=
  match getUserMedia env with
  | Throws m => connect_catch stop now m st
  | Returns _ =>
      if ai st
      then (withSession (liveConnect env) st, [LiveConnect])
      else connect_catch stop now
             "Cannot read properties of null (reading 'live')" st
  end.

(** [connect] when nothing else runs during its [await]. *)
Definition connect (env : ConnectEnv T)
  (stop : AudioBufferSourceNode -> Outcome unit) (now : N) (st : LiveClient)
  : LiveClient * list Effect :=
  match connect_begin env stop now st with
  | (st1, before, true) =>
      let (st2, after) := connect_resume env stop now st1 in
      (st2, before ++ after)
  | (st1, before, false) => (st1, before)
  end.

Definition startAudioInput (stream : nat) (st : LiveClient)
  : LiveClient * list Effect :=
  match inputAudioContext st, currentSession st with
  | Some _, Some _ =>
      ({| ai := ai st;
          inputAudioContext := inputAudioContext st;
          outputAudioContext := outputAudioContext st;
          inputSource := Some stream;
          processor := true;
          nextStartTime := nextStartTime st;
          sources := sources st;
          currentSession := currentSession st;
          created := created st |},
       [CreateScriptProcessor stream])
  | _, _ => (st, [])
  end.

(** The [onopen] callback given to [ai.live.connect]. *)
Definition onopen (stream : nat) (now : N) (st : LiveClient)
  : LiveClient * list Effect :=
  let (st', started) := startAudioInput stream st in
  (st',
   [OnStateChange CONNECTED] ++ started
   ++ [OnLog (logEntry now from_system "Connected to Aryan.")]).

(** The [onclose] callback. *)
Definition onclose (stop : AudioBufferSourceNode -> Outcome unit)
  (now : N) (st : LiveClient) : LiveClient * list Effect :=
  let (st', torn) := disconnect stop st in
  (st',
   [OnStateChange DISCONNECTED;
    OnLog (logEntry now from_system "Connection closed.")] ++ torn).

(** The [onerror] callback; [message] is [err.message]. *)
Definition onerror (stop : AudioBufferSourceNode -> Outcome unit)
  (now : N) (message : string) (st : LiveClient) : LiveClient * list Effect :=
  let (st', torn) := disconnect stop st in
  (st',
   [ConsoleError "Gemini Live Error:";
    OnStateChange ERROR;
    OnLog (logEntry now from_error (orElse message "Network error"))]
   ++ torn).

(** [this.currentSession?.then(session => send(session)).catch(...)]: the
    send is made when the promise is there and fulfils and the call does
    not throw; in every other case nothing is sent and nothing is thrown. *)
Definition thenSend (p : option SessionPromise)
  (throws : Session -> option string) (sent : Effect) : list Effect :=
  match p with
  | Some (Fulfilled session) =>
      match throws session with
      | None => [sent]
      | Some _ => []
      end
  | _ => []
  end.

(** The [onaudioprocess] handler of the capture processor. *)
Definition onaudioprocess (inputData : list number) (st : LiveClient)
  : list Effect :=
  let currentRate :=
    match inputAudioContext st with
    | Some ctx => if N.eqb (sampleRate ctx) 0 then 16000%N else sampleRate ctx
    | None => 16000%N
    end in
  let pcmBlob := createPcmBlob inputData currentRate in
  OnVolume (Rms inputData)
    :: thenSend (currentSession st) sendRealtimeInput_throws
         (SendRealtimeInput pcmBlob).

(** *** sendText *)

(** Modelled from the spec: [arrayBufferToBase64] of [utils/audio] is not
    among the sources; the spec calls it the binary-to-text transport
    encoding, taken here as the same Base64 as [btoa]. The bytes are those
    of [new TextEncoder().encode(text)]. *)
Definition arrayBufferToBase64 (bytes : list N) : string :=
  string_of_list_ascii (base64 bytes).

Definition TextEncoder_encode (text : string) : list N :=
  map N_of_ascii (list_ascii_of_string text).

Definition sendText_catch (now : N) (message : string) : list Effect :=
  [ConsoleError "Failed to send text";
   OnLog (logEntry now from_error ("Failed to send text: " ++ message)%string)].

(** [sendText]: what it does once the awaited promise has settled. [now]
    is the wall clock at the user entry, [now'] at the error entry. *)
Definition sendText (text : string) (now now' : N) (st : LiveClient)
  : list Effect :=
  match currentSession st with
  | None => []
  | Some Pending => []
  | Some (Rejected reason) => sendText_catch now' reason
  | Some (Fulfilled session) =>
      OnLog (logEntry now from_user text)
        :: match sendRealtimeInput_throws session with
           | None =>
               [SendRealtimeInput
                  {| data := arrayBufferToBase64 (TextEncoder_encode text);
                     mimeType := "text/plain" |}]
           | Some m => sendText_catch now' m
           end
  end.

(** *** Tool calls *)

(** The names [handleToolCall] has a branch for. *)
Definition knownTool (name : string) : bool :=
  String.eqb name "openWebsite" || String.eqb name "setScreenMode"
  || String.eqb name "getSystemTime".

(** [args.key] on the arguments object: [undefined] prints as such. *)
Definition property (args : list (string * string)) (key : string) : string :=
  match find (fun kv => String.eqb (fst kv) key) args with
  | Some kv => snd kv
  | None => "undefined"
  end.

(** [(fc.args as any).key]: a [TypeError] when the request has no [args]. *)
Definition readArg (fc : FunctionCall) (key : string) : Outcome string :=
  match fc_args fc with
  | Some args => Returns (property args key)
  | None =>
      Throws ("Cannot read properties of undefined (reading '"
              ++ key ++ "')")%string
  end.

(** The [try] block of [handleToolCall] for one call: the calls it made
    and the object it assigned to [result], or what it threw. A name that
    is none of the three leaves [result] at [{ status: 'ok' }]. *)
Definition runTool (browser : Browser) (fc : FunctionCall)
  : list Effect * Outcome ToolResult :=
  if String.eqb (fc_name fc) "openWebsite" then
    match readArg fc "url" with
    | Throws m => ([], Throws m)
    | Returns url =>
        match window_open browser url with
        | Throws m => ([WindowOpen url], Throws m)
        | Returns _ =>
            ([WindowOpen url; OnToolAction ("Opened " ++ url)%string],
             Returns (Result ("Opened " ++ url)%string))
        end
    end
  else if String.eqb (fc_name fc) "setScreenMode" then
    match readArg fc "mode" with
    | Throws m => ([], Throws m)
    | Returns mode =>
        match dispatchEvent browser mode with
        | Throws m => ([ThemeChange mode], Throws m)
        | Returns _ =>
            ([ThemeChange mode; OnToolAction (mode ++ " mode active")%string],
             Returns (Result ("Set mode to " ++ mode)%string))
        end
    end
  else if String.eqb (fc_name fc) "getSystemTime" then
    let time := toLocaleString browser in
    ([OnToolAction ("Time: " ++ time)%string], Returns (Time time))
  else ([], Returns StatusOk).

(** The entry logged at the head of the loop body. *)
Definition toolLog (now : N) (fc : FunctionCall) : LogEntry :=
  {| log_id := fc_id fc;
     log_timestamp := now;
     log_source := from_ai;
     log_message := ("Executing: " ++ fc_name fc)%string;
     log_type := Some "tool" |}.

(** The value of [result] after the [try]/[catch]. *)
Definition toolResult (outcome : Outcome ToolResult) : ToolResult :=
  match outcome with
  | Returns r => r
  | Throws m => Error m
  end.

(** One turn of the loop of [handleToolCall]: what it does at once, and
    the send it leaves to the promise's [then]. *)
Definition handleFunctionCall (browser : Browser) (now : N) (st : LiveClient)
  (fc : FunctionCall) : list Effect * list Effect :=
  let (done, outcome) := runTool browser fc in
  (OnLog (toolLog now fc) :: done,
   thenSend (currentSession st) sendToolResponse_throws
     (SendToolResponse (fc_id fc) (fc_name fc) (toolResult outcome))).

(** [handleToolCall]: the loop runs to its end before any [then] callback
    does, so the sends come after it, in the order of the calls. *)
Fixpoint handleToolCall (browser : Browser) (now : N) (st : LiveClient)
  (functionCalls : list FunctionCall) : list Effect * list Effect :=
  match functionCalls with
  | [] => ([], [])
  | fc :: rest =>
      let (done, sends) := handleFunctionCall browser now st fc in
      let (done', sends') := handleToolCall browser now st rest in
      (done ++ done', sends ++ sends')
  end.

(** *** handleMessage *)

(** The truthiness of [...inlineData?.data]. *)
Definition audioPayload (message : LiveServerMessage) : option string :=
  match inlineData message with
  | Some d => if String.eqb d "" then None else Some d
  | None => None
  end.

(** [handleMessage] up to [await decodeAudioData(...)]: the payload it
    started to decode, if it did. *)
Definition handleMessage_begin (message : LiveServerMessage) (st : LiveClient)
  : list Effect * option string :=
  match audioPayload message, outputAudioContext st with
  | Some base64Audio, Some _ => ([OnVolume (Level (1 # 2))], Some base64Audio)
  | _, _ => ([], None)
  end.

(** The [try]/[catch] around the decoding, once the decoding has ended:
    the buffer is played, or the failure goes to the console. *)
Definition afterDecode (decoded : option (Outcome AudioBuffer))
  (st : LiveClient) : LiveClient * list Effect :=
  match decoded with
  | Some (Returns audioBuffer) => playAudio audioBuffer st
  | Some (Throws _) => (st, [ConsoleError "Audio decode error"])
  | None => (st, [])
  end.

(** [handleMessage] from there on, on the fields as they are by then;
    [decoded] is how the decoding ended when one was started. *)
Definition handleMessage_resume
  (stop : AudioBufferSourceNode -> Outcome unit) (browser : Browser) (now : N)
  (message : LiveServerMessage) (decoded : option (Outcome AudioBuffer))
  (st : LiveClient) : LiveClient * list Effect :=
  let (st1, played) := afterDecode decoded st in
  let (st2, cut) :=
    if interrupted message
    then let (st', stopped) := stopAllAudio stop st1 in
         (st', stopped ++ [OnLog (logEntry now from_system "Interrupted.")])
    else (st1, []) in
  let idle := if turnComplete message then [OnVolume (Level 0)] else [] in
  let (called, sends) :=
    match toolCall message with
    | Some functionCalls => handleToolCall browser now st2 functionCalls
    | None => ([], [])
    end in
  (st2, played ++ cut ++ idle ++ called ++ sends).

(** [handleMessage] when nothing else runs during its [await].
    [decodeAudioData] (of [utils/audio], with [base64ToUint8Array]) is
    the decoder of a payload: it gives a buffer or throws. *)
Definition handleMessage (decodeAudioData : string -> Outcome AudioBuffer)
  (stop : AudioBufferSourceNode -> Outcome unit) (browser : Browser) (now : N)
  (message : LiveServerMessage) (st : LiveClient) : LiveClient * list Effect :=
  let (first, decoding) := handleMessage_begin message st in
  let (st', rest) :=
    handleMessage_resume stop browser now message
      (option_map decodeAudioData decoding) st in
  (st', first ++ rest).

(** *** The presentation layer's use of the client ([App.tsx]) *)

(** The React state the callbacks write, and the client behind
    [clientRef]. *)
Record App : Type := mkApp {
  connectionState : ConnectionState;
  logs : list LogEntry;
  lastToolAction : string;
  clientRef : option LiveClient
}.

Definition initialApp : App :=
  {| connectionState := DISCONNECTED;
     logs := [];
     lastToolAction := "";
     clientRef := None |}.

Definition setConnectionState (s : ConnectionState) (app : App) : App :=
  {| connectionState := s;
     logs := logs app;
     lastToolAction := lastToolAction app;
     clientRef := clientRef app |}.

Definition setClient (c : LiveClient) (app : App) : App :=
  {| connectionState := connectionState app;
     logs := logs app;
     lastToolAction := lastToolAction app;
     clientRef := Some c |}.

(** The callbacks [initClient] installs: [onStateChange] is
    [setConnectionState], [onLog] appends to [logs], [onToolAction] sets
    [lastToolAction]. *)
Definition callback (app : App) (e : Effect) : App :=
  match e with
  | OnStateChange s => setConnectionState s app
  | OnLog log =>
      {| connectionState := connectionState app;
         logs := logs app ++ [log];
         lastToolAction := lastToolAction app;
         clientRef := clientRef app |}
  | OnToolAction action =>
      {| connectionState := connectionState app;
         logs := logs app;
         lastToolAction := action;
         clientRef := clientRef app |}
  | _ => app
  end.

Definition callbacks (app : App) (es : list Effect) : App :=
  fold_left callback es app.

(** [initClient]: the client of [clientRef], made on first use. *)
Definition initClient (app : App) : LiveClient :=
  match clientRef app with
  | Some c => c
  | None => newLiveClient
  end.

(** [toggleConnection], with [connect] run to its end. *)
Definition toggleConnection (env : ConnectEnv T)
  (stop : AudioBufferSourceNode -> Outcome unit) (now : N) (app : App)
  : App * list Effect :=
  match connectionState app with
  | CONNECTED | CONNECTING =>
      match clientRef app with
      | Some c =>
          let (c', es) := disconnect stop c in
          (setConnectionState DISCONNECTED (callbacks (setClient c' app) es),
           es)
      | None => (setConnectionState DISCONNECTED app, [])
      end
  | _ =>
      let (c', es) := connect env stop now (initClient app) in
      (callbacks (setClient c' app) es, es)
  end.

(** [handleSendText] on the trimmed input [text]. *)
Definition handleSendText (env : ConnectEnv T)
  (stop : AudioBufferSourceNode -> Outcome unit) (now now' : N)
  (text : string) (app : App) : App * list Effect :=
  if String.eqb text "" then (app, [])
  else
    let (c1, es1) :=
      match connectionState app with
      | DISCONNECTED => connect env stop now (initClient app)
      | _ => (initClient app, [])
      end in
    let es2 := sendText text now now' c1 in
    (callbacks (setClient c1 app) (es1 ++ es2), es1 ++ es2).

(** *** Notions used to state further properties *)

(** The live sources are distinct objects, all made before the next one
    will be. *)
Definition wellFormed (st : LiveClient) : Prop :=
  NoDup (map node (sources st))
  /\ Forall (fun s => (node s < created st)%nat) (sources st).

(** The entries passed to [onLog] in a trace, in order. *)
Definition loggedBy (e : Effect) : list LogEntry :=
  match e with
  | OnLog log => [log]
  | _ => []
  end.

Definition logged (es : list Effect) : list LogEntry := flat_map loggedBy es.

(** The effects that put something on the transport. *)
Definition isSend (e : Effect) : bool :=
  match e with
  | SendRealtimeInput _ | SendToolResponse _ _ _ => true
  | _ => false
  end.

(** The effects a tool call can have. *)
Definition isToolEffect (e : Effect) : bool :=
  match e with
  | OnLog _ | OnToolAction _ | WindowOpen _ | ThemeChange _
  | SendToolResponse _ _ _ => true
  | _ => false
  end.

(** Every payload of the sequence arrives no later than the end of the
    audio queued before it, [free] being the end of the queue at first. *)
Fixpoint Backlogged (free : T) (ps : list (T * AudioBuffer)) : Prop :=
  match ps with
  | [] => True
  | p :: rest =>
      t_le (fst p) free
      /\ Backlogged (t_plus free (duration (snd p))) rest
  end.

(** Buffers played back to back from [free] on. *)
Fixpoint backToBack (free : T) (bs : list AudioBuffer) : list (T * T) :=
  match bs with
  | [] => []
  | b :: rest =>
      (free, duration b) :: backToBack (t_plus free (duration b)) rest
  end.

(** The [theme-change] listener of [App.tsx]: the new value of
    [isDarkMode] after an effect, [e.detail === 'dark'] on a theme
    event. *)
Definition handleThemeChange (isDarkMode : bool) (e : Effect) : bool :=
  match e with
  | ThemeChange detail => String.eqb detail "dark"
  | _ => isDarkMode
  end.

Definition themeAfter (isDarkMode : bool) (es : list Effect) : bool :=
  fold_left handleThemeChange es isDarkMode.

(** The message of the first step of [connect]'s [try] block that throws,
    if one does. *)
Definition connectFailure (env : ConnectEnv T) : option string :=
  match newGoogleGenAI env, newInputContext env, newOutputContext env,
        getUserMedia env with
  | Throws m, _, _, _ => Some m
  | _, Throws m, _, _ => Some m
  | _, _, Throws m, _ => Some m
  | _, _, _, Throws m => Some m
  | _, _, _, _ => None
  end.

End LiveClient.

(** ** A sample session, on exact rational time *)

(** Every constructor and the microphone request succeed, and the
    transport's promise fulfils with a session whose sends do not throw. *)
Definition sampleEnv : ConnectEnv Q :=
  {| newGoogleGenAI := Returns tt;
     newInputContext := Returns (16000%N, 0%Q);
     newOutputContext := Returns (24000%N, 0%Q);
     getUserMedia := Returns 1%nat;
     liveConnect := Fulfilled {| sendRealtimeInput_throws := None;
                                 sendToolResponse_throws := None |} |}.

(** The same, with the microphone refused. *)
Definition deniedEnv : ConnectEnv Q :=
  {| newGoogleGenAI := Returns tt;
     newInputContext := Returns (16000%N, 0%Q);
     newOutputContext := Returns (24000%N, 0%Q);
     getUserMedia := Throws "Permission denied";
     liveConnect := Pending |}.

Definition stopReturns (s : AudioBufferSourceNode) : Outcome unit :=
  Returns tt.

(** Every [stop] throws, as on a node that cannot be stopped any more. *)
Definition stopThrows (s : AudioBufferSourceNode) : Outcome unit :=
  Throws "InvalidStateError".

Definition sampleBrowser : Browser :=
  {| window_open := fun _ => Returns tt;
     dispatchEvent := fun _ => Returns tt;
     toLocaleString := "11/2/2026, 9:00:00 AM" |}.

(** A decoder that gives one second of audio at 24 kHz, and one that
    fails. *)
Definition decodeOneSecond (payload : string) : Outcome AudioBuffer :=
  Returns {| buf_length := 24000; buf_sampleRate := 24000 |}.

Definition decodeFails (payload : string) : Outcome AudioBuffer :=
  Throws "The buffer passed to decodeAudioData contains an unknown content type.".

(** The presentation layer after the user pressed the button (wall clock
    1000) and the transport opened (wall clock 1001), and its client. *)
Definition connectingApp : @App Q :=
  fst (toggleConnection sampleEnv stopReturns 1000 initialApp).

Definition connectedApp : @App Q :=
  let (c, es) := onopen 1 1001 (initClient connectingApp) in
  callbacks (setClient c connectingApp) es.

Definition connectedClient : @LiveClient Q := initClient connectedApp.

(** The client after a [disconnect] in that state. *)
Definition disconnectedClient : @LiveClient Q :=
  fst (disconnect stopReturns connectedClient).

(** The connected client with its output clock at 5 and two buffers
    scheduled, of one second and of half a second. *)
Definition playingClient : @LiveClient Q :=
  fst (scheduleAll
         [(5%Q, {| buf_length := 24000; buf_sampleRate := 24000 |});
          (5%Q, {| buf_length := 12000; buf_sampleRate := 24000 |})]
         connectedClient).

(** The presentation layer after a press of the button with the
    microphone refused. *)
Definition failedApp : @App Q :=
  fst (toggleConnection deniedEnv stopReturns 1000 initialApp).

(** Calls with a missing [args] object, a missing [url], and a mode that
    is not one of the two declared. *)
Definition bareCall : FunctionCall :=
  {| fc_id := "call-2"; fc_name := "openWebsite"; fc_args := None |}.

Definition emptyCall : FunctionCall :=
  {| fc_id := "call-3"; fc_name := "openWebsite"; fc_args := Some [] |}.

Definition blueCall : FunctionCall :=
  {| fc_id := "call-4";
     fc_name := "setScreenMode";
     fc_args := Some [("mode", "blue")] |}.

Definition audioMessage : LiveServerMessage :=
  {| inlineData := Some "AAD/fwCA";
     interrupted := false;
     turnComplete := false;
     toolCall := None |}.

Definition interruptedMessage : LiveServerMessage :=
  {| inlineData := None;
     interrupted := true;
     turnComplete := false;
     toolCall := None |}.

Definition timeCall : FunctionCall :=
  {| fc_id := "call-1"; fc_name := "getSystemTime"; fc_args := Some [] |}.

Definition toolMessage : LiveServerMessage :=
  {| inlineData := None;
     interrupted := false;
     turnComplete := false;
     toolCall := Some [timeCall] |}.

(** * Properties *)

(** ** The 16-bit encoder *)

Example ex_encode_half : encodeSample (Finite (1 # 2)) = 16383%Z.
Proof. reflexivity. Qed.
Example ex_encode_neg : encodeSample (Finite (-3 # 2)) = (-32768)%Z.
Proof. reflexivity. Qed.
Example ex_encode_nan : encodeSample NaN = 0%Z.
Proof. reflexivity. Qed.
Example ex_encode_inf : encodeSample PosInfinity = 32767%Z.
Proof. reflexivity. Qed.
Example ex_blob :
  createPcmBlob [Finite 0; Finite 1; NegInfinity] 16000
  = {| data := "AAD/fwCA"; mimeType := "audio/pcm;rate=16000" |}.
Proof. vm_compute. reflexivity. Qed.

Lemma truncate_bounds (q : Q) (lo hi : Z) :
  (lo <= 0 <= hi)%Z -> (inject_Z lo <= q <= inject_Z hi)%Q ->
  (lo <= truncate q <= hi)%Z.
Proof.
  destruct q as [n d]. unfold truncate, Qle, inject_Z; cbn [Qnum Qden].
  intros [Hlo Hhi] [Hl Hu]. rewrite !Z.mul_1_r in *.
  destruct (Z_lt_le_dec n 0) as [Hneg | Hpos].
  - replace n with (- (- n))%Z by lia. rewrite Z.quot_opp_l by lia.
    rewrite Z.quot_div_nonneg by lia.
    assert (0 <= - n / Z.pos d)%Z by (apply Z.div_pos; lia).
    assert (- n / Z.pos d <= - lo)%Z
      by (apply Z.div_le_upper_bound; lia).
    lia.
  - rewrite Z.quot_div_nonneg by lia.
    assert (0 <= n / Z.pos d)%Z by (apply Z.div_pos; lia).
    assert (n / Z.pos d <= hi)%Z by (apply Z.div_le_upper_bound; lia).
    lia.
Qed.

Lemma ToInt16_small (q : Q) :
  (-32768 <= truncate q <= 32767)%Z -> ToInt16 (Finite q) = truncate q.
Proof.
  intros H. unfold ToInt16. set (t := truncate q) in *.
  destruct (Z_lt_le_dec t 0) as [Hneg | Hpos].
  - assert (E : (t mod 65536 = t + 65536)%Z).
    { symmetry. apply (Z.mod_unique_pos _ _ (-1)); lia. }
    rewrite E. destruct (Z.leb_spec 32768 (t + 65536)); lia.
  - rewrite Z.mod_small by lia. destruct (Z.leb_spec 32768 t); lia.
Qed.

Lemma ToInt16_range (x : number) : (-32768 <= ToInt16 x <= 32767)%Z.
Proof.
  destruct x as [q | | |]; cbn [ToInt16]; try lia.
  pose proof (Z.mod_pos_bound (truncate q) 65536 ltac:(lia)).
  destruct (Z.leb_spec 32768 (truncate q mod 65536)); lia.
Qed.

Lemma clamp_bounds (q : Q) : (-1 <= clamp q <= 1)%Q.
Proof.
  unfold clamp.
  destruct (Qle_bool 1 q) eqn:H1; [lra |].
  destruct (Qle_bool (-1) q) eqn:H2; [| lra].
  apply Qle_bool_iff in H2.
  assert (~ (1 <= q)%Q) by (rewrite <- Qle_bool_iff; congruence).
  lra.
Qed.

Lemma scale_truncate_bounds (s : Q) :
  (-1 <= s <= 1)%Q -> (-32768 <= truncate (scale s) <= 32767)%Z.
Proof.
  intros Hs. unfold scale. destruct (Qle_bool 0 s) eqn:H0.
  - apply Qle_bool_iff in H0.
    assert (0 <= truncate (s * 32767) <= 32767)%Z; [| lia].
    apply truncate_bounds; [lia |].
    change (inject_Z 0) with 0%Q. change (inject_Z 32767) with 32767%Q. lra.
  - assert (~ (0 <= s)%Q) by (rewrite <- Qle_bool_iff; congruence).
    assert (-32768 <= truncate (s * 32768) <= 0)%Z; [| lia].
    apply truncate_bounds; [lia |].
    change (inject_Z 0) with 0%Q.
    change (inject_Z (-32768)) with (-32768)%Q. lra.
Qed.

(** The code's [Math.max(-1, Math.min(1, x))] and sign test are the
    specification's clamp and scale, and the store into the [Int16Array]
    does not wrap. *)
Lemma encodeSample_spec (x : number) : encodeSample x = spec_encode x.
Proof.
  destruct x as [q | | |]; try reflexivity.
  unfold spec_encode. rewrite <- ToInt16_small
    by (apply scale_truncate_bounds, clamp_bounds).
  unfold encodeSample, clamp, scale. cbn [Math_min].
  destruct (Qle_bool 1 q) eqn:H1; [reflexivity |].
  cbn [Math_max]. destruct (Qle_bool (-1) q) eqn:H2; [| reflexivity].
  cbn [number_ltb number_mul]. destruct (Qle_bool 0 q); reflexivity.
Qed.

Lemma silent_roundtrip (n : nat) :
  decodePcm16 (Uint8Array_of_int16 (pcm16 (repeat (Finite 0) n)))
  = repeat (Finite 0) n.
Proof.
  induction n as [| n IH]; [reflexivity |].
  cbn [repeat]. unfold decodePcm16, Uint8Array_of_int16, pcm16 in *.
  cbn [map flat_map]. change (encodeSample (Finite 0)) with 0%Z.
  change (int16_bytes 0) with [0%N; 0%N].
  cbn [app Int16Array_of_bytes map]. rewrite IH. reflexivity.
Qed.

Lemma silent_bytes (n : nat) :
  Uint8Array_of_int16 (pcm16 (repeat (Finite 0) n)) = repeat 0%N (2 * n).
Proof.
  induction n as [| n IH]; [reflexivity |].
  replace (2 * S n)%nat with (S (S (2 * n))) by lia.
  cbn [repeat]. unfold Uint8Array_of_int16, pcm16 in *.
  cbn [map flat_map]. change (encodeSample (Finite 0)) with 0%Z.
  change (int16_bytes 0) with [0%N; 0%N]. cbn [app]. rewrite IH.
  reflexivity.
Qed.

(** C4. For every array of samples, the [Int16Array] that [createPcmBlob]
    fills has the length of the input (and its byte view twice that);
    every entry is the specification's encoding of its sample (clamp to
    [-1, 1], negative scaled by 32768 and the rest by 32767) and lies in
    [-32768, 32767]; a silent block encodes to zero bytes only, which
    decode back to zeros. *)
Theorem createPcmBlob_encoding (samples : list number) :
  List.length (pcm16 samples) = List.length samples
  /\ List.length (Uint8Array_of_int16 (pcm16 samples))
     = (2 * List.length samples)%nat
  /\ pcm16 samples = map spec_encode samples
  /\ Forall (fun v => (-32768 <= v <= 32767)%Z) (pcm16 samples)
  /\ (forall n,
        Uint8Array_of_int16 (pcm16 (repeat (Finite 0) n))
        = repeat 0%N (2 * n))
  /\ (forall n,
        decodePcm16 (Uint8Array_of_int16 (pcm16 (repeat (Finite 0) n)))
        = repeat (Finite 0) n).
Proof.
  repeat split.
  - apply length_map.
  - unfold Uint8Array_of_int16, pcm16.
    induction samples as [| x xs IH]; [reflexivity |].
    cbn [map flat_map]. rewrite length_app, IH. cbn. lia.
  - apply map_ext, encodeSample_spec.
  - unfold pcm16. apply Forall_map, Forall_forall. intros x _.
    unfold encodeSample. apply ToInt16_range.
  - apply silent_bytes.
  - apply silent_roundtrip.
Qed.

(** ** The clock laws hold of exact rational time *)

#[export] Instance Q_clock_laws : ClockLaws Q.
Proof.
  split; unfold t_le; cbn [t_ltb t_plus t_zero t_seconds Q_clock].
  - intros a. rewrite negb_false_iff. apply Qle_bool_iff. lra.
  - intros a b. rewrite negb_true_iff, negb_false_iff. intros H.
    apply Qle_bool_iff.
    assert (~ (b <= a)%Q) by (rewrite <- Qle_bool_iff; congruence). lra.
  - intros a b c. rewrite !negb_false_iff, !Qle_bool_iff. lra.
  - intros a d. rewrite !negb_false_iff, !Qle_bool_iff. lra.
  - intros n r. rewrite negb_false_iff, Qle_bool_iff.
    unfold Qle; cbn. lia.
Qed.

(** ** The playback scheduler *)

Section Scheduler.

Context {T : Type} {clock : Clock T} {laws : ClockLaws T}.

Lemma t_le_refl (a : T) : t_le a a.
Proof. apply t_ltb_irrefl. Qed.

Lemma duration_nonneg (b : AudioBuffer) : t_le t_zero (duration b).
Proof. apply t_seconds_nonneg. Qed.

(** One payload: the buffer starts at the greater of the clock and the
    next free time, and the next free time moves to its end. *)
Lemma schedule_step (now : T) (b : AudioBuffer) (st : LiveClient) :
  outputAudioContext st <> None ->
  exists source start st',
    schedule (now, b) st = (st', [SourceStart source start])
    /\ buffer source = b
    /\ t_le now start
    /\ t_le (nextStartTime st) start
    /\ (start = now \/ start = nextStartTime st)
    /\ nextStartTime st' = t_plus start (duration b)
    /\ outputAudioContext st' <> None.
Proof.
  intros Hctx. destruct st as [a ic oc src pr nst srcs sess n].
  cbn [outputAudioContext nextStartTime] in *.
  destruct oc as [ctx |]; [| congruence].
  unfold schedule, playAudio, tick. cbn.
  eexists _, _, _. split; [reflexivity |]. cbn.
  destruct (t_ltb nst now) eqn:Hlt.
  - repeat split; auto using t_le_refl.
    + apply t_ltb_asym, Hlt.
    + discriminate.
  - repeat split; auto using t_le_refl. discriminate.
Qed.

Lemma scheduleAll_Scheduled (ps : list (T * AudioBuffer)) (st : LiveClient) :
  outputAudioContext st <> None ->
  Scheduled (nextStartTime st) ps (starts (snd (scheduleAll ps st))).
Proof.
  revert st. induction ps as [| [now b] rest IH]; intros st Hctx.
  - constructor.
  - destruct (schedule_step now b st Hctx)
      as (source & start & st1 & E & Hb & H1 & H2 & H3 & H4 & H5).
    cbn [scheduleAll]. rewrite E.
    specialize (IH st1 H5). destruct (scheduleAll rest st1) as [st2 others].
    cbn [snd app starts flat_map started] in *. rewrite Hb, H4 in *.
    constructor; assumption.
Qed.

Lemma Scheduled_head (free : T) (ps : list (T * AudioBuffer))
  (out : list (T * T)) :
  Scheduled free ps out -> Forall (fun e => t_le free (fst e)) out.
Proof.
  induction 1 as [| free now start b rest out H1 H2 H3 _ IH]; constructor.
  - exact H2.
  - eapply Forall_impl; [| exact IH]. cbn. intros e He.
    eapply t_le_trans; [exact H2 |].
    eapply t_le_trans; [| exact He].
    apply t_plus_nonneg, duration_nonneg.
Qed.

Lemma Scheduled_length (free : T) (ps : list (T * AudioBuffer))
  (out : list (T * T)) :
  Scheduled free ps out -> List.length out = List.length ps.
Proof. induction 1; cbn; congruence. Qed.

Lemma Scheduled_noOverlap (free : T) (ps : list (T * AudioBuffer))
  (out : list (T * T)) :
  Scheduled free ps out -> Sorted noOverlap out.
Proof.
  induction 1 as [| free now start b rest out H1 H2 H3 Hrest IH];
    constructor; [exact IH |].
  inversion Hrest; subst; constructor. assumption.
Qed.

Lemma Scheduled_inOrder (free : T) (ps : list (T * AudioBuffer))
  (out : list (T * T)) :
  Scheduled free ps out -> StronglySorted inOrder out.
Proof.
  induction 1 as [| free now start b rest out H1 H2 H3 Hrest IH];
    constructor; [exact IH |].
  eapply Forall_impl; [| exact (Scheduled_head _ _ _ Hrest)].
  unfold inOrder. cbn. intros e He.
  eapply t_le_trans; [| exact He].
  apply t_plus_nonneg, duration_nonneg.
Qed.

(** C1. For every sequence of payloads scheduled one after the other on a
    client that has an output context, each buffer starts at the greater
    of the output clock and the next free time, and the next free time
    moves to that start plus the buffer's duration; so each start is at or
    after the previous start plus the previous duration, and the starts
    never decrease. *)
Theorem playAudio_schedule (ps : list (T * AudioBuffer)) (st : LiveClient) :
  outputAudioContext st <> None ->
  let out := starts (snd (scheduleAll ps st)) in
  Scheduled (nextStartTime st) ps out
  /\ List.length out = List.length ps
  /\ Sorted noOverlap out
  /\ StronglySorted inOrder out.
Proof.
  intros Hctx out.
  pose proof (scheduleAll_Scheduled ps st Hctx) as H. fold out in H.
  repeat split.
  - exact H.
  - exact (Scheduled_length _ _ _ H).
  - exact (Scheduled_noOverlap _ _ _ H).
  - exact (Scheduled_inOrder _ _ _ H).
Qed.

Lemma tryStop_stops (stop : AudioBufferSourceNode -> Outcome unit)
  (s : AudioBufferSourceNode) (l : list AudioBufferSourceNode) :
  In s l -> In (SourceStop s : @Effect T) (flat_map (tryStop stop) l).
Proof.
  intros H. apply in_flat_map. exists s. split; [exact H |].
  unfold tryStop. destruct (stop s); left; reflexivity.
Qed.

Lemma Set_add_keeps (x s : AudioBufferSourceNode)
  (set : list AudioBufferSourceNode) : In s set -> In s (Set_add x set).
Proof.
  unfold Set_add. destruct (existsb (sameNode x) set); [auto |].
  intros H. apply in_or_app. left. exact H.
Qed.

(** The playing of a decoded buffer keeps the live sources and the output
    context. *)
Lemma afterDecode_keeps (decoded : option (Outcome AudioBuffer))
  (st : LiveClient) :
  outputAudioContext (fst (afterDecode decoded st)) = outputAudioContext st
  /\ forall s, In s (sources st) -> In s (sources (fst (afterDecode decoded st))).
Proof.
  destruct decoded as [[b | m] |]; cbn; auto.
  unfold playAudio. destruct (outputAudioContext st) eqn:E; cbn; auto.
  split; [reflexivity |]. intros s. apply Set_add_keeps.
Qed.

(** What [handleMessage] does from its [await] on when the message says
    [interrupted]. *)
Lemma handleMessage_resume_interrupted
  (stop : AudioBufferSourceNode -> Outcome unit) (browser : Browser) (now : N)
  (message : LiveServerMessage) (decoded : option (Outcome AudioBuffer))
  (st : LiveClient) :
  interrupted message = true ->
  exists rest,
    handleMessage_resume stop browser now message decoded st
    = (fst (stopAllAudio stop (fst (afterDecode decoded st))),
       snd (afterDecode decoded st)
       ++ (flat_map (tryStop stop) (sources (fst (afterDecode decoded st)))
           ++ [OnVolume (Level 0)]
           ++ [OnLog (logEntry now from_system "Interrupted.")])
       ++ rest).
Proof.
  intros Hint. unfold handleMessage_resume. rewrite Hint.
  destruct (afterDecode decoded st) as [st1 played]. cbn [fst snd].
  unfold stopAllAudio at 1.
  match goal with
  | |- context [let (called, sends) := ?c in _] =>
      destruct c as [called sends]
  end.
  exists ((if turnComplete message then [OnVolume (Level 0)] else [])
          ++ called ++ sends).
  cbn [fst stopAllAudio]. rewrite <- !app_assoc. reflexivity.
Qed.

(** C2. When the continuation of [handleMessage] runs on a message that
    says [interrupted], whatever the sources answer to [stop]: [stop] is
    called on every live source, the set of live sources is empty
    afterwards, loudness 0 is reported and a system entry "Interrupted."
    is logged; and with an output context the next free time is its clock
    at that moment, so every buffer scheduled after that starts at or
    after that clock value. *)
Theorem interrupted_stops_playback
  (stop : AudioBufferSourceNode -> Outcome unit) (browser : Browser) (now : N)
  (message : LiveServerMessage) (decoded : option (Outcome AudioBuffer))
  (st : LiveClient) :
  interrupted message = true ->
  let st' := fst (handleMessage_resume stop browser now message decoded st) in
  let es := snd (handleMessage_resume stop browser now message decoded st) in
  sources st' = []
  /\ (forall s, In s (sources st) -> In (SourceStop s) es)
  /\ In (OnVolume (Level 0)) es
  /\ In (OnLog {| log_id := toString now;
                  log_timestamp := now;
                  log_source := from_system;
                  log_message := "Interrupted.";
                  log_type := None |}) es
  /\ forall ctx,
       outputAudioContext st = Some ctx ->
       nextStartTime st' = currentTime ctx
       /\ forall ps,
            List.length (starts (snd (scheduleAll ps st'))) = List.length ps
            /\ Forall (fun e => t_le (currentTime ctx) (fst e))
                 (starts (snd (scheduleAll ps st'))).
Proof.
  intros Hint st' es.
  destruct (handleMessage_resume_interrupted stop browser now message decoded
              st Hint) as [rest E].
  destruct (afterDecode_keeps decoded st) as [Hctx Hsrc].
  subst st' es. rewrite E. cbn [fst snd].
  set (st1 := fst (afterDecode decoded st)) in *.
  repeat split.
  - intros s Hs. apply in_or_app. right. apply in_or_app. left.
    apply in_or_app. left. apply tryStop_stops, Hsrc, Hs.
  - apply in_or_app. right. apply in_or_app. left.
    apply in_or_app. right. left. reflexivity.
  - apply in_or_app. right. apply in_or_app. left.
    apply in_or_app. right. right. left. reflexivity.
  - cbn [stopAllAudio fst nextStartTime]. rewrite Hctx, H. reflexivity.
  - assert (Hc : outputAudioContext (fst (stopAllAudio stop st1)) <> None)
      by (cbn; rewrite Hctx, H; discriminate).
    exact (Scheduled_length _ _ _ (scheduleAll_Scheduled ps _ Hc)).
  - assert (Hc : outputAudioContext (fst (stopAllAudio stop st1)) <> None)
      by (cbn; rewrite Hctx, H; discriminate).
    pose proof (Scheduled_head _ _ _ (scheduleAll_Scheduled ps _ Hc)) as F.
    assert (En : nextStartTime (fst (stopAllAudio stop st1)) = currentTime ctx)
      by (cbn; rewrite Hctx, H; reflexivity).
    rewrite En in F. exact F.
Qed.

End Scheduler.

(** ** The controller's handlers *)

Section Controller.

Context {T : Type} {clock : Clock T}.

Abbreviation Client := (@LiveClient T).

(** *** Tool calls *)

Lemma runTool_unknown (browser : Browser) (fc : FunctionCall) :
  knownTool (fc_name fc) = false ->
  runTool (T:=T) browser fc = ([], Returns StatusOk).
Proof.
  unfold knownTool, runTool. intros H.
  apply orb_false_iff in H as [H H3]. apply orb_false_iff in H as [H1 H2].
  rewrite H1, H2, H3. reflexivity.
Qed.

(** C3 (as amended). For every tool-call request: the entry of type
    "tool" with the request's id, naming the tool, is logged first, before
    anything the handler does. If the session handle is there, fulfils and
    [sendToolResponse] does not throw, exactly one response is sent,
    carrying the request's id and name: the error message when the handler
    threw, [{ status: 'ok' }] when the name is none of the three tools. If
    the handle is null, rejected or never settles, or the send throws, no
    response is sent and nothing is raised. *)
Theorem handleFunctionCall_response (browser : Browser) (now : N)
  (st : Client) (fc : FunctionCall) :
  let done := fst (handleFunctionCall browser now st fc) in
  let sends := snd (handleFunctionCall browser now st fc) in
  done = OnLog {| log_id := fc_id fc;
                  log_timestamp := now;
                  log_source := from_ai;
                  log_message := ("Executing: " ++ fc_name fc)%string;
                  log_type := Some "tool" |}
           :: fst (runTool browser fc)
  /\ (forall session,
        currentSession st = Some (Fulfilled session) ->
        sendToolResponse_throws session = None ->
        exists r,
          sends = [SendToolResponse (fc_id fc) (fc_name fc) r]
          /\ (forall m, snd (runTool (T:=T) browser fc) = Throws m ->
                        r = Error m)
          /\ (knownTool (fc_name fc) = false ->
              r = StatusOk /\ fst (runTool (T:=T) browser fc) = []))
  /\ (currentSession st = None
      \/ (exists reason, currentSession st = Some (Rejected reason))
      \/ currentSession st = Some Pending
      \/ (exists session m,
            currentSession st = Some (Fulfilled session)
            /\ sendToolResponse_throws session = Some m) ->
      sends = []).
Proof.
  unfold handleFunctionCall.
  destruct (runTool browser fc) as [made outcome] eqn:E. cbn [fst snd].
  split; [reflexivity |]. split.
  - intros session Hs Hok. unfold thenSend. rewrite Hs, Hok.
    eexists. split; [reflexivity |]. split.
    + intros m Hm. subst outcome. reflexivity.
    + intros Hunknown. rewrite (runTool_unknown browser fc Hunknown) in E.
      inversion E. split; reflexivity.
  - unfold thenSend.
    intros [H | [[reason H] | [H | (session & m & H & Hm)]]]; rewrite H;
      try reflexivity.
    rewrite Hm. reflexivity.
Qed.

(** *** sendText *)

(** C7 (as amended). [sendText] does nothing at all without a session
    handle. With a handle that fulfils, the user entry carrying the text is
    logged first, before the send is attempted, then the text goes out as
    one [text/plain] chunk; if that send throws, an error entry follows.
    With a handle that is rejected, nothing is sent, no user entry is
    logged, and one error entry is. Nothing is raised to the caller. *)
Theorem sendText_behaviour (text : string) (now now' : N) (st : Client) :
  (currentSession st = None -> sendText text now now' st = [])
  /\ (forall session,
        currentSession st = Some (Fulfilled session) ->
        exists rest,
          sendText text now now' st
          = OnLog {| log_id := toString now;
                     log_timestamp := now;
                     log_source := from_user;
                     log_message := text;
                     log_type := None |} :: rest
          /\ (sendRealtimeInput_throws session = None ->
              rest = [SendRealtimeInput
                        {| data := arrayBufferToBase64 (TextEncoder_encode text);
                           mimeType := "text/plain" |}])
          /\ (forall m, sendRealtimeInput_throws session = Some m ->
              rest = [ConsoleError "Failed to send text";
                      OnLog (logEntry now' from_error
                               ("Failed to send text: " ++ m)%string)]))
  /\ (forall reason,
        currentSession st = Some (Rejected reason) ->
        sendText text now now' st
        = [ConsoleError "Failed to send text";
           OnLog {| log_id := toString now';
                    log_timestamp := now';
                    log_source := from_error;
                    log_message := ("Failed to send text: " ++ reason)%string;
                    log_type := None |}]).
Proof.
  unfold sendText. repeat split.
  - intros H. rewrite H. reflexivity.
  - intros session H. rewrite H. eexists. split; [reflexivity |].
    split.
    + intros Hs. rewrite Hs. reflexivity.
    + intros m Hs. rewrite Hs. reflexivity.
  - intros reason H. rewrite H. reflexivity.
Qed.

(** *** Inbound audio *)

Lemma tryStop_quiet (stop : AudioBufferSourceNode -> Outcome unit)
  (l : list AudioBufferSourceNode) (v : Loudness) :
  ~ In (OnVolume v : @Effect T) (flat_map (tryStop stop) l).
Proof.
  rewrite in_flat_map. intros (s & _ & H). unfold tryStop in H.
  destruct (stop s); cbn in H; intuition discriminate.
Qed.

Lemma runTool_quiet (browser : Browser) (fc : FunctionCall) (v : Loudness) :
  ~ In (OnVolume v : @Effect T) (fst (runTool browser fc)).
Proof.
  unfold runTool.
  repeat match goal with
  | |- context [if ?c then _ else _] => destruct c
  | |- context [match ?c with _ => _ end] => destruct c
  end; cbn; intuition discriminate.
Qed.

Lemma thenSend_quiet (p : option SessionPromise)
  (throws : Session -> option string) (id name : string) (r : ToolResult)
  (v : Loudness) :
  ~ In (OnVolume v : @Effect T)
      (thenSend p throws (SendToolResponse id name r)).
Proof.
  unfold thenSend. destruct p as [[s | |] |]; try (cbn; tauto).
  destruct (throws s); cbn; intuition discriminate.
Qed.

(** Tool calls never report a loudness. *)
Lemma handleToolCall_quiet (browser : Browser) (now : N) (st : Client)
  (calls : list FunctionCall) (v : Loudness) :
  ~ In (OnVolume v)
      (fst (handleToolCall browser now st calls)
       ++ snd (handleToolCall browser now st calls)).
Proof.
  induction calls as [| fc calls IH]; [cbn; tauto |].
  cbn [handleToolCall]. unfold handleFunctionCall.
  pose proof (runTool_quiet browser fc v) as M.
  destruct (runTool browser fc) as [made outcome].
  destruct (handleToolCall browser now st calls) as [called' sends'].
  cbn [fst snd] in *. rewrite in_app_iff in IH.
  cbn [app In]. rewrite !in_app_iff.
  pose proof (thenSend_quiet (currentSession st) sendToolResponse_throws
                (fc_id fc) (fc_name fc) (toolResult outcome) v) as S.
  intuition discriminate.
Qed.

(** C10 (as amended). For a message that carries a non-empty audio payload
    and arrives while the client has an output context, [handleMessage]
    first reports loudness 0.5, whatever the payload is and however its
    decoding ends, and only then decodes it. Without an output context the
    payload is ignored: nothing is reported and nothing is decoded. *)
Theorem handleMessage_loudness (message : LiveServerMessage) (st : Client)
  (payload : string) :
  audioPayload message = Some payload ->
  (forall ctx,
     outputAudioContext st = Some ctx ->
     handleMessage_begin message st
     = ([OnVolume (Level (1 # 2))], Some payload)
     /\ forall decodeAudioData stop browser now,
        exists rest,
          snd (handleMessage decodeAudioData stop browser now message st)
          = OnVolume (Level (1 # 2)) :: rest)
  /\ (outputAudioContext st = None ->
      handleMessage_begin message st = ([], None)
      /\ forall decodeAudioData stop browser now,
           ~ In (OnVolume (Level (1 # 2)))
               (snd (handleMessage decodeAudioData stop browser now
                       message st))).
Proof.
  intros Hp. split.
  - intros ctx Hc.
    assert (B : handleMessage_begin message st
                = ([OnVolume (Level (1 # 2))], Some payload))
      by (unfold handleMessage_begin; rewrite Hp, Hc; reflexivity).
    split; [exact B |]. intros decodeAudioData stop browser now.
    unfold handleMessage. rewrite B.
    destruct (handleMessage_resume stop browser now message
                (option_map decodeAudioData (Some payload)) st) as [st' rest].
    exists rest. reflexivity.
  - intros Hc.
    assert (B : handleMessage_begin message st = ([], None))
      by (unfold handleMessage_begin; rewrite Hp, Hc; reflexivity).
    split; [exact B |]. intros decodeAudioData stop browser now.
    unfold handleMessage. rewrite B. cbn [option_map].
    unfold handleMessage_resume. cbn [afterDecode].
    pose proof (fun calls st2 =>
                  handleToolCall_quiet browser now st2 calls (Level (1 # 2)))
      as Q.
    destruct (interrupted message), (turnComplete message),
      (toolCall message) as [calls |];
      cbn [stopAllAudio snd fst app];
      try (specialize (Q calls));
      repeat match goal with
      | |- context [handleToolCall ?b ?n ?s ?c] =>
          specialize (Q s); destruct (handleToolCall b n s c)
      end;
      cbn [fst snd app] in *; rewrite ?in_app_iff; cbn [In];
      rewrite ?in_app_iff;
      intros H; repeat destruct H as [H | H];
      try discriminate; try (exact H);
      try (eapply tryStop_quiet; exact H);
      try (apply Q; apply in_or_app; auto).
Qed.

(** *** Teardown *)

Lemma disconnect_teardown (stop : AudioBufferSourceNode -> Outcome unit)
  (st : Client) :
  Forall (fun e => isTeardown e = true) (snd (disconnect stop st)).
Proof.
  unfold disconnect, stopAllAudio. cbn [snd processor inputSource
    inputAudioContext outputAudioContext].
  rewrite !Forall_app. repeat split.
  - apply Forall_forall. intros e He. apply in_flat_map in He as (s & _ & He).
    unfold tryStop in He. destruct (stop s); cbn in He;
      destruct He as [<- | []]; reflexivity.
  - repeat constructor.
  - destruct (processor st); repeat constructor.
  - destruct (inputSource st); repeat constructor.
  - destruct (inputAudioContext st); repeat constructor.
  - destruct (outputAudioContext st); repeat constructor.
Qed.

(** The callbacks of the presentation layer ignore teardown effects. *)
Lemma callbacks_teardown (app : App) (es : list (@Effect T)) :
  Forall (fun e => isTeardown e = true) es -> callbacks app es = app.
Proof.
  unfold callbacks. induction 1 as [| e es He _ IH]; [reflexivity |].
  cbn [fold_left]. destruct e; try discriminate; exact IH.
Qed.

Lemma callbacks_app (app : App) (es es' : list (@Effect T)) :
  callbacks app (es ++ es') = callbacks (callbacks app es) es'.
Proof. apply fold_left_app. Qed.

(** C5 (as amended). From any fields, [disconnect] returns with no live
    source, the capture nodes and both audio contexts cleared, the client
    and the session handle null, having called [stop] on every live
    source, disconnected the capture nodes that were there and closed the
    contexts that were there. It announces no state change itself: a
    second call in a row changes no field and only reports loudness 0
    again. The state is set by its callers: [toggleConnection] sets
    Disconnected after it, [onclose] sets Disconnected and [onerror] sets
    Error before it. *)
Theorem disconnect_teardown_idempotent
  (stop : AudioBufferSourceNode -> Outcome unit) (st : Client) :
  let st1 := fst (disconnect stop st) in
  let es := snd (disconnect stop st) in
  (sources st1 = [] /\ currentSession st1 = None /\ ai st1 = false
   /\ processor st1 = false /\ inputSource st1 = None
   /\ inputAudioContext st1 = None /\ outputAudioContext st1 = None)
  /\ (forall s, In s (sources st) -> In (SourceStop s) es)
  /\ (processor st = true -> In ProcessorDisconnect es)
  /\ (inputSource st <> None -> In InputSourceDisconnect es)
  /\ (forall ctx, inputAudioContext st = Some ctx -> In (ContextClose ctx) es)
  /\ (forall ctx, outputAudioContext st = Some ctx -> In (ContextClose ctx) es)
  /\ (forall s, ~ In (OnStateChange s) es)
  /\ disconnect stop st1 = (st1, [OnVolume (Level 0)])
  /\ (forall env now app,
        connectionState app = CONNECTED \/ connectionState app = CONNECTING ->
        connectionState (fst (toggleConnection env stop now app))
        = DISCONNECTED)
  /\ (forall now app,
        connectionState (callbacks app (snd (onclose stop now st)))
        = DISCONNECTED)
  /\ (forall now message app,
        connectionState (callbacks app (snd (onerror stop now message st)))
        = ERROR).
Proof.
  intros st1 es.
  pose proof (disconnect_teardown stop st) as TD.
  assert (Hclose : forall now app,
             connectionState (callbacks app (snd (onclose stop now st)))
             = DISCONNECTED).
  { intros now app. unfold onclose.
    destruct (disconnect stop st) as [st' torn]. cbn [snd] in *.
    rewrite callbacks_app, callbacks_teardown by exact TD. reflexivity. }
  assert (Herror : forall now message app,
             connectionState
               (callbacks app (snd (onerror stop now message st)))
             = ERROR).
  { intros now message app. unfold onerror.
    destruct (disconnect stop st) as [st' torn]. cbn [snd] in *.
    rewrite callbacks_app, callbacks_teardown by exact TD. reflexivity. }
  fold es in TD. subst st1 es. unfold disconnect in *.
  cbn [stopAllAudio fst snd sources currentSession ai processor inputSource
         inputAudioContext outputAudioContext nextStartTime created] in *.
  split; [repeat split |].
  split; [intros s Hs; apply in_or_app; left; apply in_or_app; left;
          apply tryStop_stops; exact Hs |].
  split; [intros ->; rewrite !in_app_iff; cbn; tauto |].
  split; [destruct (inputSource st); [| congruence]; intros _;
          rewrite !in_app_iff; cbn; tauto |].
  split; [intros ctx ->; rewrite !in_app_iff; cbn; tauto |].
  split; [intros ctx ->; rewrite !in_app_iff; cbn; tauto |].
  split; [intros s Hs; rewrite Forall_forall in TD;
          specialize (TD _ Hs); discriminate |].
  split; [reflexivity |].
  split; [| split; assumption].
  intros env now app H. unfold toggleConnection.
  destruct H as [-> | ->]; destruct (clientRef app) as [c |];
    try reflexivity; destruct (disconnect stop c); reflexivity.
Qed.

(** *** connect *)

Lemma teardown_not_setup (es : list (@Effect T)) :
  Forall (fun e => isTeardown e = true) es ->
  Forall (fun e => isSetup e = false) es.
Proof.
  apply Forall_impl. intros e. destruct e; cbn; congruence.
Qed.

Lemma sendText_not_setup (text : string) (now now' : N) (st : Client) :
  Forall (fun e => isSetup e = false) (sendText text now now' st).
Proof.
  unfold sendText, sendText_catch.
  destruct (currentSession st) as [[session | reason |] |];
    try destruct (sendRealtimeInput_throws session);
    repeat constructor.
Qed.

(** C6 (as amended). [connect] has no guard of its own: whatever the
    fields are, it announces Connecting first, and when the constructors
    and the microphone request succeed it makes two new audio contexts,
    asks for the microphone, opens a transport and replaces the session
    handle. It is the presentation layer that does not call it while
    Connecting or Connected: there [toggleConnection] only tears down and
    [handleSendText] only sends, and neither performs any step of a
    connection setup. *)
Theorem connect_has_no_guard :
  (forall (env : ConnectEnv T) stop now (st : Client),
     exists rest,
       snd (connect env stop now st) = OnStateChange CONNECTING :: rest)
  /\ (forall (env : ConnectEnv T) stop now (st : Client) cin cout stream,
        newGoogleGenAI env = Returns tt ->
        newInputContext env = Returns cin ->
        newOutputContext env = Returns cout ->
        getUserMedia env = Returns stream ->
        snd (connect env stop now st)
        = [OnStateChange CONNECTING; NewAudioContext 16000;
           NewAudioContext 24000; GetUserMedia; LiveConnect]
        /\ currentSession (fst (connect env stop now st))
           = Some (liveConnect env))
  /\ (forall (env : ConnectEnv T) stop now app,
        connectionState app = CONNECTING \/ connectionState app = CONNECTED ->
        Forall (fun e => isSetup e = false)
          (snd (toggleConnection env stop now app)))
  /\ (forall (env : ConnectEnv T) stop now now' text app,
        connectionState app = CONNECTING \/ connectionState app = CONNECTED ->
        Forall (fun e => isSetup e = false)
          (snd (handleSendText env stop now now' text app))).
Proof.
  split; [| split; [| split]].
  - intros env stop now st. unfold connect, connect_begin.
    destruct (connect_setup env st) as [[st1 made] [u | m]].
    + destruct (connect_resume env stop now st1) as [st2 after].
      eexists. reflexivity.
    + destruct (connect_catch stop now m st1) as [st2 caught].
      eexists. reflexivity.
  - intros env stop now st cin cout stream H1 H2 H3 H4.
    unfold connect, connect_begin, connect_setup, connect_resume.
    rewrite H1, H2, H3, H4. cbn. split; reflexivity.
  - intros env stop now app H. unfold toggleConnection.
    destruct H as [-> | ->]; destruct (clientRef app) as [c |];
      try constructor;
      pose proof (disconnect_teardown stop c) as TD;
      destruct (disconnect stop c) as [c' es]; cbn [snd] in *;
      apply teardown_not_setup; exact TD.
  - intros env stop now now' text app H. unfold handleSendText.
    destruct (String.eqb text ""); [constructor |].
    destruct H as [-> | ->]; cbn [snd];
      (apply Forall_app; split; [constructor | apply sendText_not_setup]).
Qed.

(** *** Decode failures *)

(** C8 (the code at a failing decode). A message that carries only an
    audio payload whose decoding throws, handled with an output context:
    loudness 0.5 is reported, the failure goes to the console, and that
    is all. The fields are unchanged and nothing is raised; no entry is
    passed to [onLog]. *)
Theorem decode_failure_console_only
  (decodeAudioData : string -> Outcome AudioBuffer)
  (stop : AudioBufferSourceNode -> Outcome unit) (browser : Browser) (now : N)
  (message : LiveServerMessage) (st : Client) (payload reason : string)
  (ctx : AudioContext) :
  audioPayload message = Some payload ->
  outputAudioContext st = Some ctx ->
  decodeAudioData payload = Throws reason ->
  interrupted message = false ->
  turnComplete message = false ->
  toolCall message = None ->
  handleMessage decodeAudioData stop browser now message st
  = (st, [OnVolume (Level (1 # 2)); ConsoleError "Audio decode error"])
  /\ forall entry,
       ~ In (OnLog entry)
           (snd (handleMessage decodeAudioData stop browser now message st)).
Proof.
  intros Hp Hc Hd Hi Ht Htc.
  assert (E : handleMessage decodeAudioData stop browser now message st
              = (st, [OnVolume (Level (1 # 2));
                      ConsoleError "Audio decode error"])).
  { unfold handleMessage, handleMessage_begin, handleMessage_resume.
    rewrite Hp, Hc. cbn [option_map afterDecode]. rewrite Hd, Hi, Ht, Htc.
    reflexivity. }
  split; [exact E |]. intros entry. rewrite E. cbn.
  intuition discriminate.
Qed.

(** *** Entry ids *)

Lemma startAudioInput_session (stream : nat) (st : Client) :
  currentSession (fst (startAudioInput stream st)) = currentSession st.
Proof.
  unfold startAudioInput.
  destruct (inputAudioContext st); [| reflexivity].
  destruct (currentSession st) eqn:E; [reflexivity | exact E].
Qed.

(** C9 (the code when two entries are made in the same millisecond). When
    the transport opens and a pending [sendText] resumes while the wall
    clock still reads [now], the entry "Connected to Aryan." and the
    user's entry are two different entries with the same id. *)
Theorem log_ids_collide (stream : nat) (now now' : N) (text : string)
  (st : Client) (session : Session) :
  currentSession st = Some (Fulfilled session) ->
  let opened := onopen stream now st in
  let es := snd opened ++ sendText text now now' (fst opened) in
  exists e1 e2 before after,
    es = before ++ OnLog e1 :: OnLog e2 :: after
    /\ log_source e1 = from_system
    /\ log_source e2 = from_user /\ log_message e2 = text
    /\ e1 <> e2
    /\ log_id e1 = log_id e2.
Proof.
  intros Hs opened es. subst opened es. unfold onopen, sendText.
  pose proof (startAudioInput_session stream st) as K.
  destruct (startAudioInput stream st) as [st' started].
  cbn [fst snd] in *. rewrite K, Hs.
  eexists _, _, ([OnStateChange CONNECTED] ++ started), _.
  split; [rewrite <- !app_assoc; cbn [app]; reflexivity |].
  cbn. repeat split. unfold logEntry. intros H. inversion H.
Qed.

End Controller.


(** ** The sample session *)

Example ex_connected :
  connectionState connectedApp = CONNECTED
  /\ map log_message (logs connectedApp) = ["Connected to Aryan."]
  /\ sources connectedClient = []
  /\ processor connectedClient = true.
Proof. repeat split. Qed.

(** Three payloads: the second arrives at 3/2 while the first still plays
    until 2, and starts at 2; the third arrives at 4, after the queue has
    run dry at 5/2, and starts at 4. *)
Example ex_schedule :
  starts (snd (scheduleAll
                 [(1, {| buf_length := 24000; buf_sampleRate := 24000 |});
                  (3 # 2, {| buf_length := 12000; buf_sampleRate := 24000 |});
                  (4, {| buf_length := 12000; buf_sampleRate := 24000 |})]
                 connectedClient))
  = [(1, 24000 # 24000); (48000 # 24000, 12000 # 24000);
     (4, 12000 # 24000)].
Proof. reflexivity. Qed.

(** An interruption at clock 6 with two live sources whose [stop] throws. *)
Example ex_interrupted :
  handleMessage decodeFails stopThrows sampleBrowser 2000 interruptedMessage
    (tick 6 playingClient)
  = ({| ai := true;
        inputAudioContext := Some {| sampleRate := 16000; currentTime := 0 |};
        outputAudioContext := Some {| sampleRate := 24000; currentTime := 6 |};
        inputSource := Some 1%nat;
        processor := true;
        nextStartTime := 6;
        sources := [];
        currentSession := currentSession connectedClient;
        created := 2 |},
     [SourceStop {| node := 0;
                    buffer := {| buf_length := 24000;
                                 buf_sampleRate := 24000 |} |};
      SourceStop {| node := 1;
                    buffer := {| buf_length := 12000;
                                 buf_sampleRate := 24000 |} |};
      OnVolume (Level 0);
      OnLog {| log_id := "2000";
               log_timestamp := 2000;
               log_source := from_system;
               log_message := "Interrupted.";
               log_type := None |}]).
Proof. reflexivity. Qed.

(** A tool call on the connected client is answered once. *)
Example ex_tool_call :
  snd (handleMessage decodeOneSecond stopReturns sampleBrowser 2000
         toolMessage connectedClient)
  = [OnLog {| log_id := "call-1";
              log_timestamp := 2000;
              log_source := from_ai;
              log_message := "Executing: getSystemTime";
              log_type := Some "tool" |};
     OnToolAction "Time: 11/2/2026, 9:00:00 AM";
     SendToolResponse "call-1" "getSystemTime"
       (Time "11/2/2026, 9:00:00 AM")].
Proof. reflexivity. Qed.

(** ** Instances of the theorems on the sample session *)

Lemma playAudio_schedule_witness :
  outputAudioContext connectedClient <> None
  /\ Sorted noOverlap
       (starts (snd (scheduleAll
                       [(1, {| buf_length := 24000; buf_sampleRate := 24000 |});
                        (3 # 2, {| buf_length := 12000;
                                   buf_sampleRate := 24000 |})]
                       connectedClient)))
  /\ StronglySorted inOrder
       (starts (snd (scheduleAll
                       [(1, {| buf_length := 24000; buf_sampleRate := 24000 |});
                        (3 # 2, {| buf_length := 12000;
                                   buf_sampleRate := 24000 |})]
                       connectedClient))).
Proof.
  assert (H : outputAudioContext connectedClient <> None)
    by (vm_compute; discriminate).
  split; [exact H |].
  pose proof (playAudio_schedule
                [(1, {| buf_length := 24000; buf_sampleRate := 24000 |});
                 (3 # 2, {| buf_length := 12000; buf_sampleRate := 24000 |})]
                connectedClient H) as S.
  cbv zeta in S. destruct S as (_ & _ & S1 & S2). split; assumption.
Defined.

Lemma interrupted_stops_playback_witness :
  interrupted interruptedMessage = true
  /\ sources (fst (handleMessage_resume stopThrows sampleBrowser 2000
                     interruptedMessage None (tick 6 playingClient))) = []
  /\ nextStartTime (fst (handleMessage_resume stopThrows sampleBrowser 2000
                           interruptedMessage None (tick 6 playingClient)))
     = 6.
Proof.
  split; [reflexivity |].
  pose proof (interrupted_stops_playback stopThrows sampleBrowser 2000
                interruptedMessage None (tick 6 playingClient) eq_refl) as S.
  cbv zeta in S. destruct S as (S1 & _ & _ & _ & S5).
  split; [exact S1 |].
  exact (proj1 (S5 {| sampleRate := 24000; currentTime := 6 |} eq_refl)).
Defined.

Lemma handleMessage_loudness_witness :
  audioPayload audioMessage = Some "AAD/fwCA"
  /\ handleMessage_begin audioMessage connectedClient
     = ([OnVolume (Level (1 # 2))], Some "AAD/fwCA").
Proof.
  split; [reflexivity |].
  exact (proj1 (proj1 (handleMessage_loudness audioMessage connectedClient
                         "AAD/fwCA" eq_refl)
                  {| sampleRate := 24000; currentTime := 0 |} eq_refl)).
Defined.

Lemma decode_failure_console_only_witness :
  audioPayload audioMessage = Some "AAD/fwCA"
  /\ decodeFails "AAD/fwCA"
     = Throws "The buffer passed to decodeAudioData contains an unknown content type."
  /\ handleMessage decodeFails stopReturns sampleBrowser 2000 audioMessage
       connectedClient
     = (connectedClient,
        [OnVolume (Level (1 # 2)); ConsoleError "Audio decode error"]).
Proof.
  split; [reflexivity |]. split; [reflexivity |].
  exact (proj1 (decode_failure_console_only decodeFails stopReturns
                  sampleBrowser 2000 audioMessage connectedClient "AAD/fwCA"
                  "The buffer passed to decodeAudioData contains an unknown content type."
                  {| sampleRate := 24000; currentTime := 0 |}
                  eq_refl eq_refl eq_refl eq_refl eq_refl eq_refl)).
Defined.

Lemma log_ids_collide_witness :
  currentSession (initClient connectingApp)
  = Some (Fulfilled {| sendRealtimeInput_throws := None;
                       sendToolResponse_throws := None |})
  /\ exists e1 e2 before after,
       snd (onopen 1 1001 (initClient connectingApp))
       ++ sendText "hello" 1001 1001
            (fst (onopen 1 1001 (initClient connectingApp)))
       = before ++ OnLog e1 :: OnLog e2 :: after
       /\ log_source e1 = from_system
       /\ log_source e2 = from_user /\ log_message e2 = "hello"
       /\ e1 <> e2
       /\ log_id e1 = log_id e2.
Proof.
  split; [reflexivity |].
  exact (log_ids_collide 1 1001 1001 "hello" (initClient connectingApp)
           {| sendRealtimeInput_throws := None;
              sendToolResponse_throws := None |} eq_refl).
Defined.

(** The two entries of that run, as the presentation layer keeps them. *)
Example ex_same_id :
  map log_id
    (logs (callbacks connectedApp
             (sendText "hello" 1001 1001 connectedClient)))
  = ["1001"; "1001"].
Proof. reflexivity. Qed.

(** ** Where the code departs from the specification's sentences *)

(** C3: a tool call that arrives after [disconnect] (which clears the
    handle and leaves the transport open) is logged and run, and gets no
    response. *)
Lemma tool_call_after_disconnect_unanswered :
  snd (handleMessage decodeOneSecond stopReturns sampleBrowser 2000
         toolMessage disconnectedClient)
  = [OnLog {| log_id := "call-1";
              log_timestamp := 2000;
              log_source := from_ai;
              log_message := "Executing: getSystemTime";
              log_type := Some "tool" |};
     OnToolAction "Time: 11/2/2026, 9:00:00 AM"].
Proof. reflexivity. Qed.

(** C5: [disconnect] on the connected client announces no state: the
    presentation layer still holds Connected after it. *)
Lemma disconnect_leaves_state_connected :
  connectionState connectedApp = CONNECTED
  /\ snd (disconnect stopReturns connectedClient)
     = [OnVolume (Level 0); ProcessorDisconnect; InputSourceDisconnect;
        ContextClose {| sampleRate := 16000; currentTime := 0 |};
        ContextClose {| sampleRate := 24000; currentTime := 0 |}]
  /\ connectionState
       (callbacks connectedApp (snd (disconnect stopReturns connectedClient)))
     = CONNECTED.
Proof. repeat split. Qed.

(** C6: [connect] on the connected client announces Connecting again, asks
    for the microphone again and opens another transport. *)
Lemma connect_again_while_connected :
  connectionState connectedApp = CONNECTED
  /\ snd (connect sampleEnv stopReturns 3000 connectedClient)
     = [OnStateChange CONNECTING; NewAudioContext 16000;
        NewAudioContext 24000; GetUserMedia; LiveConnect]
  /\ connectionState
       (callbacks connectedApp
          (snd (connect sampleEnv stopReturns 3000 connectedClient)))
     = CONNECTING.
Proof. repeat split. Qed.

(** C7: without a session handle [sendText] logs nothing; with a rejected
    one it logs an error entry and no user entry; and when the connection
    made for the send fails, the user's text leaves no entry either. *)
Lemma sendText_without_user_entry :
  sendText "hello" 2000 2001 disconnectedClient = []
  /\ sendText "hello" 2000 2001
       (withSession (Rejected "WebSocket closed") connectedClient)
     = [ConsoleError "Failed to send text";
        OnLog {| log_id := "2001";
                 log_timestamp := 2001;
                 log_source := from_error;
                 log_message := "Failed to send text: WebSocket closed";
                 log_type := None |}]
  /\ logs (fst (handleSendText deniedEnv stopReturns 1000 1001 "hello"
                  initialApp))
     = [{| log_id := "1000";
           log_timestamp := 1000;
           log_source := from_error;
           log_message := "Permission denied";
           log_type := None |}].
Proof. repeat split. Qed.

(** C10: an audio payload that arrives after [disconnect] is ignored: no
    loudness is reported. *)
Lemma audio_after_disconnect_unreported :
  audioPayload audioMessage = Some "AAD/fwCA"
  /\ handleMessage decodeOneSecond stopReturns sampleBrowser 2000 audioMessage
       disconnectedClient
     = (disconnectedClient, []).
Proof. repeat split. Qed.

(** * Further properties of the controller *)

(** ** The set of live sources *)

Section LiveSources.

Context {T : Type} {clock : Clock T}.

Lemma Set_add_fresh (x : AudioBufferSourceNode)
  (set : list AudioBufferSourceNode) :
  Forall (fun s => (node s < node x)%nat) set -> Set_add x set = set ++ [x].
Proof.
  intros H. unfold Set_add.
  destruct (existsb (sameNode x) set) eqn:E; [| reflexivity].
  apply existsb_exists in E as (s & Hs & E). unfold sameNode in E.
  apply Nat.eqb_eq in E. rewrite Forall_forall in H. specialize (H s Hs). lia.
Qed.

Lemma Set_delete_absent (x : AudioBufferSourceNode)
  (set : list AudioBufferSourceNode) :
  Forall (fun s => (node s < node x)%nat) set -> Set_delete x set = set.
Proof.
  intros H. unfold Set_delete. apply forallb_filter_id, forallb_forall.
  intros s Hs. rewrite Forall_forall in H. specialize (H s Hs).
  unfold sameNode. apply negb_true_iff, Nat.eqb_neq. lia.
Qed.

Lemma NoDup_nodes_filter (f : AudioBufferSourceNode -> bool)
  (l : list AudioBufferSourceNode) :
  NoDup (map node l) -> NoDup (map node (filter f l)).
Proof.
  induction l as [| a l IH]; cbn; [auto |]. intros H.
  inversion H as [| ? ? Hn Hl]; subst. destruct (f a); [| auto].
  cbn. constructor; [| auto]. intros Hin. apply Hn.
  apply in_map_iff in Hin as (s & Es & Hs). apply filter_In in Hs as [Hs _].
  apply in_map_iff. exists s. split; assumption.
Qed.

Lemma wellFormed_playAudio (b : AudioBuffer) (st : @LiveClient T) :
  wellFormed st -> wellFormed (fst (playAudio b st)).
Proof.
  intros [Hd Hf]. unfold playAudio.
  destruct (outputAudioContext st); [| split; assumption].
  unfold wellFormed. cbn [fst sources created].
  rewrite Set_add_fresh by exact Hf. split.
  - rewrite map_app. apply NoDup_app; [exact Hd | repeat constructor; auto |].
    intros k Hk [<- | []]. cbn in Hk.
    apply in_map_iff in Hk as (s & Es & Hs).
    rewrite Forall_forall in Hf. specialize (Hf s Hs). lia.
  - apply Forall_app. split.
    + eapply Forall_impl; [| exact Hf]. cbn. intros; lia.
    + repeat constructor.
Qed.

Lemma wellFormed_onended (s : AudioBufferSourceNode) (st : @LiveClient T) :
  wellFormed st -> wellFormed (fst (onended s st)).
Proof.
  intros [Hd Hf]. unfold onended, wellFormed, Set_delete.
  cbn [fst sources created]. split.
  - apply NoDup_nodes_filter, Hd.
  - apply Forall_forall. intros x Hx. apply filter_In in Hx as [Hx _].
    rewrite Forall_forall in Hf. exact (Hf x Hx).
Qed.

Lemma wellFormed_scheduleAll (ps : list (T * AudioBuffer))
  (st : @LiveClient T) :
  wellFormed st -> wellFormed (fst (scheduleAll ps st)).
Proof.
  revert st. induction ps as [| p ps IH]; intros st H; [exact H |].
  cbn [scheduleAll]. unfold schedule.
  assert (H1 : wellFormed (fst (playAudio (snd p) (tick (fst p) st))))
    by (apply wellFormed_playAudio; exact H).
  destruct (playAudio (snd p) (tick (fst p) st)) as [st1 e1].
  specialize (IH st1 H1). destruct (scheduleAll ps st1) as [st2 e2].
  exact IH.
Qed.

(** X1. A buffer played on a client with an output context joins the
    live sources as a new last member. While it is live, the ending of an
    older source reports nothing; its own ending gives back the set as it
    was, and reports loudness 0 exactly when that set is empty. *)
Theorem playAudio_then_onended (b : AudioBuffer) (st : @LiveClient T) :
  wellFormed st ->
  outputAudioContext st <> None ->
  let source := {| node := created st; buffer := b |} in
  let st1 := fst (playAudio b st) in
  sources st1 = sources st ++ [source]
  /\ (exists when, snd (playAudio b st) = [SourceStart source when])
  /\ (forall older, In older (sources st) ->
        snd (onended older st1) = []
        /\ In source (sources (fst (onended older st1))))
  /\ sources (fst (onended source st1)) = sources st
  /\ snd (onended source st1)
     = match sources st with
       | [] => [OnVolume (Level 0)]
       | _ :: _ => []
       end.
Proof.
  intros [Hd Hf] Hctx source st1.
  assert (E : sources st1 = sources st ++ [source]).
  { subst st1. unfold playAudio.
    destruct (outputAudioContext st); [| congruence].
    cbn [fst sources]. apply Set_add_fresh. exact Hf. }
  split; [exact E |]. split.
  { unfold playAudio. destruct (outputAudioContext st); [| congruence].
    eexists. reflexivity. }
  assert (D : Set_delete source (sources st ++ [source]) = sources st).
  { unfold Set_delete. rewrite filter_app.
    fold (Set_delete source (sources st)).
    rewrite Set_delete_absent by exact Hf. cbn [filter].
    unfold sameNode. rewrite Nat.eqb_refl. cbn. apply app_nil_r. }
  split; [| split].
  - intros older Ho.
    assert (K : In source (Set_delete older (sources st ++ [source]))).
    { unfold Set_delete. apply filter_In. split.
      - apply in_or_app. right. left. reflexivity.
      - unfold sameNode. apply negb_true_iff, Nat.eqb_neq.
        rewrite Forall_forall in Hf. specialize (Hf older Ho).
        subst source. cbn. lia. }
    unfold onended. cbn [fst snd sources]. rewrite E. split; [| exact K].
    destruct (Set_delete older (sources st ++ [source])); [destruct K |].
    reflexivity.
  - unfold onended. cbn [fst sources]. rewrite E. exact D.
  - unfold onended. cbn [snd]. rewrite E, D.
    destruct (sources st); reflexivity.
Qed.

(** X2. When every payload of a sequence arrives no later than the end
    of the audio queued before it, the buffers are played back to back:
    the first starts at the next free time and each other one exactly
    where the one before it ends, with no gap. *)
Theorem scheduleAll_back_to_back (ps : list (T * AudioBuffer))
  (st : @LiveClient T) :
  outputAudioContext st <> None ->
  Backlogged (nextStartTime st) ps ->
  starts (snd (scheduleAll ps st))
  = backToBack (nextStartTime st) (map snd ps)
  /\ nextStartTime (fst (scheduleAll ps st))
     = fold_left (fun t b => t_plus t (duration b)) (map snd ps)
         (nextStartTime st).
Proof.
  revert st. induction ps as [| [now b] ps IH]; intros st Hctx Hb.
  - split; reflexivity.
  - destruct Hb as [Hle Hb]. cbn [fst snd] in Hle, Hb.
    cbn [scheduleAll map fold_left backToBack]. unfold schedule.
    cbn [fst snd].
    assert (S : exists source st1,
               playAudio b (tick now st)
               = (st1, [SourceStart source (nextStartTime st)])
               /\ buffer source = b
               /\ nextStartTime st1 = t_plus (nextStartTime st) (duration b)
               /\ outputAudioContext st1 <> None).
    { destruct st as [a ic oc src pr nst srcs sess n].
      cbn [outputAudioContext nextStartTime] in *.
      destruct oc as [ctx |]; [| congruence].
      unfold playAudio, tick. cbn. unfold t_le in Hle. rewrite Hle.
      eexists _, _. split; [reflexivity |]. cbn.
      repeat split. discriminate. }
    destruct S as (source & st1 & E & Eb & En & Hc1). rewrite E.
    rewrite <- En in Hb. specialize (IH st1 Hc1 Hb).
    destruct (scheduleAll ps st1) as [st2 others]. cbn [fst snd] in *.
    destruct IH as [IH1 IH2]. unfold starts in *.
    cbn [flat_map started app]. rewrite Eb, IH1, IH2, En.
    split; reflexivity.
Qed.

End LiveSources.

(** ** The end of the queue *)

Section QueueEnd.

Context {T : Type} {clock : Clock T} {laws : ClockLaws T}.

Lemma schedule_advances (p : T * AudioBuffer) (st : @LiveClient T) :
  t_le (nextStartTime st) (nextStartTime (fst (schedule p st)))
  /\ Forall (fun e => t_le (nextStartTime st) (fst e))
       (starts (snd (schedule p st))).
Proof.
  destruct st as [a ic oc src pr nst srcs sess n], p as [now b].
  unfold schedule, playAudio, tick. cbn.
  destruct oc as [ctx |]; cbn.
  - assert (H : t_le nst (if t_ltb nst now then now else nst)).
    { destruct (t_ltb nst now) eqn:E;
        [apply t_ltb_asym, E | apply t_ltb_irrefl]. }
    split.
    + eapply t_le_trans; [exact H |].
      apply t_plus_nonneg, t_seconds_nonneg.
    + repeat constructor. exact H.
  - split; [apply t_ltb_irrefl | constructor].
Qed.

(** X3. Scheduling never moves the end of the queue back: over any
    sequence of payloads, with or without an output context, the next
    free time afterwards is at or after the one before, and no buffer
    starts before it. *)
Theorem scheduleAll_never_moves_back (ps : list (T * AudioBuffer))
  (st : @LiveClient T) :
  t_le (nextStartTime st) (nextStartTime (fst (scheduleAll ps st)))
  /\ Forall (fun e => t_le (nextStartTime st) (fst e))
       (starts (snd (scheduleAll ps st))).
Proof.
  revert st. induction ps as [| p ps IH]; intros st.
  - split; [apply t_ltb_irrefl | constructor].
  - cbn [scheduleAll]. destruct (schedule_advances p st) as [H1 H2].
    destruct (schedule p st) as [st1 first]. specialize (IH st1).
    destruct (scheduleAll ps st1) as [st2 others]. cbn [fst snd] in *.
    destruct IH as [IH1 IH2]. split.
    + eapply t_le_trans; eassumption.
    + unfold starts in *. rewrite flat_map_app. apply Forall_app.
      split; [exact H2 |].
      eapply Forall_impl; [| exact IH2]. cbn. intros e He.
      eapply t_le_trans; eassumption.
Qed.

End QueueEnd.

(** ** Messages, tool calls and sends *)

Section Handlers.

Context {T : Type} {clock : Clock T}.

(** The continuation of [handleMessage], part by part. *)
Lemma handleMessage_resume_parts
  (stop : AudioBufferSourceNode -> Outcome unit) (browser : Browser) (now : N)
  (message : LiveServerMessage) (decoded : option (Outcome AudioBuffer))
  (st : @LiveClient T) :
  let st1 := fst (afterDecode decoded st) in
  let st2 := if interrupted message then fst (stopAllAudio stop st1)
             else st1 in
  let tools := match toolCall message with
               | Some calls => handleToolCall browser now st2 calls
               | None => ([], [])
               end in
  handleMessage_resume stop browser now message decoded st
  = (st2,
     snd (afterDecode decoded st)
     ++ (if interrupted message
         then snd (stopAllAudio stop st1)
              ++ [OnLog (logEntry now from_system "Interrupted.")]
         else [])
     ++ (if turnComplete message then [OnVolume (Level 0)] else [])
     ++ fst tools ++ snd tools).
Proof.
  cbv zeta. unfold handleMessage_resume.
  destruct (afterDecode decoded st) as [st1 played]. cbn [fst snd].
  destruct (interrupted message).
  - destruct (stopAllAudio stop st1) as [st2 stopped]. cbn [fst snd].
    destruct (toolCall message) as [calls |];
      [destruct (handleToolCall browser now st2 calls) |]; reflexivity.
  - destruct (toolCall message) as [calls |];
      [destruct (handleToolCall browser now st1 calls) |]; reflexivity.
Qed.

Lemma runTool_effects (browser : Browser) (fc : FunctionCall) :
  Forall (fun e : @Effect T => isToolEffect e = true /\ isSend e = false
                               /\ loggedBy e = [])
    (fst (runTool browser fc)).
Proof.
  unfold runTool.
  repeat match goal with
  | |- context [if ?c then _ else _] => destruct c
  | |- context [match ?c with _ => _ end] => destruct c
  end; cbn; repeat constructor.
Qed.

Lemma thenSend_effects (p : option SessionPromise)
  (throws : Session -> option string) (id name : string) (r : ToolResult) :
  Forall (fun e : @Effect T => isToolEffect e = true)
    (thenSend p throws (SendToolResponse id name r)).
Proof.
  unfold thenSend. destruct p as [[s | |] |]; try constructor.
  destruct (throws s); repeat constructor.
Qed.

Lemma handleToolCall_effects (browser : Browser) (now : N)
  (st : @LiveClient T) (calls : list FunctionCall) :
  Forall (fun e => isToolEffect e = true)
    (fst (handleToolCall browser now st calls)
     ++ snd (handleToolCall browser now st calls)).
Proof.
  induction calls as [| fc calls IH]; [constructor |].
  cbn [handleToolCall]. unfold handleFunctionCall.
  pose proof (runTool_effects browser fc) as M.
  destruct (runTool browser fc) as [made outcome].
  destruct (handleToolCall browser now st calls) as [called' sends'].
  cbn [fst snd] in *. apply Forall_app in IH as [I1 I2].
  apply Forall_app; split;
    [| apply Forall_app; split; [apply thenSend_effects | exact I2]].
  cbn [app]. constructor; [reflexivity |].
  apply Forall_app. split; [| exact I1].
  eapply Forall_impl; [| exact M]. cbn. tauto.
Qed.

Lemma afterDecode_effects (decoded : option (Outcome AudioBuffer))
  (st : @LiveClient T) :
  currentSession (fst (afterDecode decoded st)) = currentSession st
  /\ Forall (fun e => isSend e = false
                      /\ forall s, e <> SourceStop s)
       (snd (afterDecode decoded st)).
Proof.
  destruct decoded as [[b | m] |]; cbn.
  - unfold playAudio. destruct (outputAudioContext st); cbn;
      (split; [reflexivity |]); repeat constructor; discriminate.
  - split; [reflexivity |]. repeat constructor; discriminate.
  - split; [reflexivity | constructor].
Qed.

(** X4. A message that does not say [interrupted] stops nothing,
    whatever else it carries (audio, turn-complete, tool calls): [stop]
    is called on no source and every source that was live is still
    live afterwards. *)
Theorem handleMessage_without_interruption
  (stop : AudioBufferSourceNode -> Outcome unit) (browser : Browser) (now : N)
  (message : LiveServerMessage) (decoded : option (Outcome AudioBuffer))
  (st : @LiveClient T) :
  interrupted message = false ->
  let st' := fst (handleMessage_resume stop browser now message decoded st) in
  let es := snd (handleMessage_resume stop browser now message decoded st) in
  (forall s, ~ In (SourceStop s) es)
  /\ (forall s, In s (sources st) -> In s (sources st'))
  /\ currentSession st' = currentSession st.
Proof.
  intros Hi st' es. subst st' es.
  rewrite handleMessage_resume_parts. cbv zeta. rewrite Hi. cbn [fst snd].
  destruct (afterDecode_effects decoded st) as [Hs Hp].
  destruct (afterDecode_keeps decoded st) as [_ Hk].
  split; [| split; [exact Hk | exact Hs]].
  intros s Hin. rewrite !in_app_iff in Hin. cbn [app In] in Hin.
  destruct Hin as [H | [[] | [H | H]]].
  - rewrite Forall_forall in Hp. destruct (Hp _ H) as [_ Hn].
    exact (Hn s eq_refl).
  - destruct (turnComplete message); cbn in H;
      [destruct H as [H | []]; discriminate | destruct H].
  - rewrite <- in_app_iff in H.
    destruct (toolCall message) as [calls |]; [| destruct H].
    pose proof (handleToolCall_effects browser now
                  (fst (afterDecode decoded st)) calls) as F.
    rewrite Forall_forall in F. specialize (F _ H). discriminate.
Qed.

(** X5. With a session that fulfils and whose [sendToolResponse] does
    not throw, a tool-call message with any number of calls logs one
    entry per call and sends one response per call, in the order of the
    calls, each with the id and the name of its call; all the responses
    come after all the handlers have run. *)
Theorem handleToolCall_in_order (browser : Browser) (now : N)
  (st : @LiveClient T) (session : Session) (calls : list FunctionCall) :
  currentSession st = Some (Fulfilled session) ->
  sendToolResponse_throws session = None ->
  snd (handleToolCall browser now st calls)
  = map (fun fc => SendToolResponse (fc_id fc) (fc_name fc)
                     (toolResult (snd (runTool (T:=T) browser fc)))) calls
  /\ logged (fst (handleToolCall browser now st calls))
     = map (toolLog now) calls
  /\ Forall (fun e => isSend e = false)
       (fst (handleToolCall browser now st calls)).
Proof.
  intros Hs Hok. induction calls as [| fc calls IH]; [repeat split; constructor |].
  cbn [handleToolCall map]. unfold handleFunctionCall.
  pose proof (runTool_effects browser fc) as M.
  destruct (runTool browser fc) as [made outcome].
  destruct (handleToolCall browser now st calls) as [called' sends'].
  cbn [fst snd] in *. destruct IH as (I1 & I2 & I3).
  unfold thenSend. rewrite Hs, Hok. cbn [app]. repeat split.
  - rewrite I1. reflexivity.
  - unfold logged in *. cbn [flat_map loggedBy app].
    rewrite flat_map_app, I2. f_equal.
    assert (E : flat_map loggedBy made = []).
    { clear -M. induction M as [| e l (_ & _ & He) _ IH]; [reflexivity |].
      cbn. rewrite He, IH. reflexivity. }
    rewrite E. reflexivity.
  - constructor; [reflexivity |]. apply Forall_app. split; [| exact I3].
    eapply Forall_impl; [| exact M]. cbn. tauto.
Qed.

End Handlers.

(** ** Tool arguments and the theme *)

Section Tools.

Context {T : Type} {clock : Clock T}.

Lemma property_absent (args : list (string * string)) (key : string) :
  (forall v, ~ In (key, v) args) -> property args key = "undefined".
Proof.
  intros H. unfold property.
  destruct (find (fun kv => String.eqb (fst kv) key) args) as [kv |] eqn:E;
    [| reflexivity].
  apply find_some in E as [Hin Hk]. apply String.eqb_eq in Hk.
  destruct kv as [k v]. cbn in Hk. subst k. destruct (H v Hin).
Qed.

(** X6. A call of [openWebsite] or [setScreenMode] that carries no
    [args] object opens nothing, changes no theme and reports no tool
    action: reading the argument throws, the entry is logged all the
    same, and the response sent back carries the error message. *)
Theorem handleFunctionCall_without_args (browser : Browser) (now : N)
  (st : @LiveClient T) (session : Session) (fc : FunctionCall) :
  fc_args fc = None ->
  fc_name fc = "openWebsite" \/ fc_name fc = "setScreenMode" ->
  currentSession st = Some (Fulfilled session) ->
  sendToolResponse_throws session = None ->
  handleFunctionCall browser now st fc
  = ([OnLog (toolLog now fc)],
     [SendToolResponse (fc_id fc) (fc_name fc)
        (Error ("Cannot read properties of undefined (reading '"
                ++ (if String.eqb (fc_name fc) "openWebsite"
                    then "url" else "mode") ++ "')")%string)]).
Proof.
  intros Ha Hn Hs Hok. unfold handleFunctionCall, runTool, readArg, thenSend.
  rewrite Ha, Hs, Hok. destruct Hn as [-> | ->]; reflexivity.
Qed.

(** X7. A call of [openWebsite] whose [args] object has no [url] opens
    the address "undefined" and answers "Opened undefined": the missing
    argument is not detected. *)
Theorem openWebsite_without_url (browser : Browser) (fc : FunctionCall)
  (args : list (string * string)) :
  fc_name fc = "openWebsite" ->
  fc_args fc = Some args ->
  (forall v, ~ In ("url", v) args) ->
  window_open browser "undefined" = Returns tt ->
  runTool (T:=T) browser fc
  = ([WindowOpen "undefined"; OnToolAction "Opened undefined"],
     Returns (Result "Opened undefined")).
Proof.
  intros Hn Ha Hk Hw. unfold runTool, readArg. rewrite Hn, Ha.
  cbn [String.eqb Ascii.eqb Bool.eqb]. rewrite (property_absent _ _ Hk), Hw.
  reflexivity.
Qed.

(** X8. A call of [setScreenMode] whose event is dispatched sets the
    dark mode of the presentation layer exactly when the mode is the
    string "dark": any other value, valid or not, gives the light theme.
    The tool action shown is "<mode> mode active" and the result
    "Set mode to <mode>". *)
Theorem setScreenMode_theme (browser : Browser) (now : N)
  (st : @LiveClient T) (fc : FunctionCall) (args : list (string * string))
  (isDarkMode : bool) (app : App) :
  fc_name fc = "setScreenMode" ->
  fc_args fc = Some args ->
  dispatchEvent browser (property args "mode") = Returns tt ->
  let mode := property args "mode" in
  let done := fst (handleFunctionCall browser now st fc) in
  themeAfter isDarkMode done = String.eqb mode "dark"
  /\ lastToolAction (callbacks app done) = (mode ++ " mode active")%string
  /\ toolResult (snd (runTool (T:=T) browser fc))
     = Result ("Set mode to " ++ mode)%string.
Proof.
  intros Hn Ha Hd mode done. subst mode done.
  unfold handleFunctionCall, runTool, readArg. rewrite Hn, Ha.
  cbn [String.eqb Ascii.eqb Bool.eqb]. rewrite Hd. repeat split.
Qed.

End Tools.

(** ** Without a session *)

Section NoSession.

Context {T : Type} {clock : Clock T}.

Lemma thenSend_unfulfilled (p : option SessionPromise)
  (throws : Session -> option string) (sent : @Effect T) :
  (forall session, p <> Some (Fulfilled session)) ->
  thenSend p throws sent = [].
Proof.
  intros H. unfold thenSend. destruct p as [[session | |] |]; try reflexivity.
  destruct (H session eq_refl).
Qed.

Lemma handleToolCall_unfulfilled (browser : Browser) (now : N)
  (st : @LiveClient T) (calls : list FunctionCall) :
  (forall session, currentSession st <> Some (Fulfilled session)) ->
  snd (handleToolCall browser now st calls) = []
  /\ Forall (fun e => isSend e = false)
       (fst (handleToolCall browser now st calls)).
Proof.
  intros H. induction calls as [| fc calls IH]; [split; constructor |].
  cbn [handleToolCall]. unfold handleFunctionCall.
  pose proof (runTool_effects (T:=T) browser fc) as M.
  destruct (runTool browser fc) as [made outcome].
  destruct (handleToolCall browser now st calls) as [called' sends'].
  cbn [fst snd] in *. destruct IH as [I1 I2].
  rewrite thenSend_unfulfilled by exact H. split; [exact I1 |].
  constructor; [reflexivity |]. apply Forall_app. split; [| exact I2].
  eapply Forall_impl; [| exact M]. cbn. tauto.
Qed.

(** X9. While the session handle is null, rejected or unsettled, nothing
    is put on the transport: neither [sendText], nor the capture
    callback, nor the handling of any inbound message (tool calls
    included) sends anything. *)
Theorem no_session_no_send (st : @LiveClient T) :
  (forall session, currentSession st <> Some (Fulfilled session)) ->
  (forall text now now',
     Forall (fun e => isSend e = false) (sendText text now now' st))
  /\ (forall inputData,
        Forall (fun e => isSend e = false) (onaudioprocess inputData st))
  /\ (forall decodeAudioData stop browser now message,
        Forall (fun e => isSend e = false)
          (snd (handleMessage decodeAudioData stop browser now message st))).
Proof.
  intros H. split; [| split].
  - intros text now now'. unfold sendText, sendText_catch.
    destruct (currentSession st) as [[session | reason |] |];
      repeat constructor.
    destruct (H session eq_refl).
  - intros inputData. unfold onaudioprocess.
    rewrite thenSend_unfulfilled by exact H. repeat constructor.
  - intros decodeAudioData stop browser now message. unfold handleMessage.
    destruct (handleMessage_begin message st) as [first decoding] eqn:B.
    pose proof (handleMessage_resume_parts stop browser now message
                  (option_map decodeAudioData decoding) st) as P.
    cbv zeta in P.
    destruct (handleMessage_resume stop browser now message
                (option_map decodeAudioData decoding) st) as [st' rest].
    inversion P as [[P1 P2]]. clear P. cbn [snd].
    destruct (afterDecode_effects (option_map decodeAudioData decoding) st)
      as [Hs Hp].
    set (st1 := fst (afterDecode (option_map decodeAudioData decoding) st))
      in *.
    assert (H2 : forall session,
               currentSession
                 (if interrupted message then fst (stopAllAudio stop st1)
                  else st1) <> Some (Fulfilled session)).
    { intros session. destruct (interrupted message);
        cbn [stopAllAudio fst currentSession]; rewrite Hs; apply H. }
    repeat (apply Forall_app; split).
    + unfold handleMessage_begin in B.
      destruct (audioPayload message), (outputAudioContext st);
        inversion B; repeat constructor.
    + eapply Forall_impl; [| exact Hp]. cbn. tauto.
    + destruct (interrupted message); [| constructor].
      apply Forall_app. split; [| repeat constructor].
      cbn [stopAllAudio snd]. apply Forall_app. split; [| repeat constructor].
      apply Forall_forall. intros e He.
      apply in_flat_map in He as (s & _ & He). unfold tryStop in He.
      destruct (stop s); destruct He as [<- | []]; reflexivity.
    + destruct (turnComplete message); repeat constructor.
    + destruct (toolCall message) as [calls |]; [| constructor].
      apply (handleToolCall_unfulfilled browser now _ calls H2).
    + destruct (toolCall message) as [calls |]; [| constructor].
      destruct (handleToolCall_unfulfilled browser now _ calls H2) as [E _].
      apply Forall_forall. intros e He.
      assert (He' : In e []) by (rewrite <- E; exact He). destruct He'.
Qed.

(** X10. The presentation layer's log only grows: after any effects of
    the client, the log is the log before followed by the entries passed
    to [onLog], in order, and the client behind [clientRef] is the same. *)
Theorem callbacks_append_only (app : @App T) (es : list Effect) :
  logs (callbacks app es) = logs app ++ logged es
  /\ clientRef (callbacks app es) = clientRef app.
Proof.
  revert app. unfold callbacks, logged.
  induction es as [| e es IH]; intros app.
  - split; [symmetry; apply app_nil_r | reflexivity].
  - cbn [fold_left flat_map]. destruct (IH (callback app e)) as [I1 I2].
    rewrite I1, I2. destruct e; cbn; rewrite <- ?app_assoc; split; reflexivity.
Qed.

End NoSession.

(** ** More on the 16-bit encoder *)

Lemma truncate_nonneg (q : Q) :
  (0 <= q)%Q ->
  (inject_Z (truncate q) <= q)%Q /\ (q < inject_Z (truncate q) + 1)%Q.
Proof.
  destruct q as [n d]. unfold truncate, Qle, Qlt. cbn. intros H.
  rewrite Z.quot_div_nonneg by lia.
  pose proof (Z.div_mod n (Z.pos d) ltac:(lia)).
  pose proof (Z.mod_pos_bound n (Z.pos d) ltac:(lia)).
  set (k := (n / Z.pos d)%Z) in *. set (r := (n mod Z.pos d)%Z) in *.
  clearbody k r. subst n.
  set (D := Z.pos d) in *. assert (0 < D)%Z by (subst D; lia). clearbody D.
  split; lia.
Qed.

Lemma truncate_neg (q : Q) :
  (q < 0)%Q ->
  (inject_Z (truncate q) - 1 < q)%Q /\ (q <= inject_Z (truncate q))%Q.
Proof.
  destruct q as [n d]. unfold truncate, Qle, Qlt. cbn. intros H.
  assert (Eq : Z.quot n (Z.pos d) = (- (- n / Z.pos d))%Z).
  { replace n with (- (- n))%Z at 1 by lia.
    rewrite Z.quot_opp_l by lia. rewrite Z.quot_div_nonneg by lia.
    reflexivity. }
  rewrite Eq.
  pose proof (Z.div_mod (- n) (Z.pos d) ltac:(lia)).
  pose proof (Z.mod_pos_bound (- n) (Z.pos d) ltac:(lia)).
  set (k := (- n / Z.pos d)%Z) in *. set (r := (- n mod Z.pos d)%Z) in *.
  clearbody k r.
  set (D := Z.pos d) in *. assert (0 < D)%Z by (subst D; lia). clearbody D.
  split; lia.
Qed.

Lemma truncate_sign (q : Q) :
  ((0 <= q)%Q -> (0 <= truncate q)%Z)
  /\ ((q <= 0)%Q -> (truncate q <= 0)%Z).
Proof.
  destruct q as [n d]. unfold truncate, Qle. cbn. split; intros H.
  - apply Z.quot_pos; lia.
  - replace n with (- (- n))%Z by lia. rewrite Z.quot_opp_l by lia.
    assert (0 <= Z.quot (- n) (Z.pos d))%Z by (apply Z.quot_pos; lia). lia.
Qed.

Lemma truncate_monotone (p q : Q) :
  (p <= q)%Q -> (truncate p <= truncate q)%Z.
Proof.
  intros H. destruct (Z_le_gt_dec (truncate p) (truncate q)) as [L | G];
    [exact L | exfalso].
  assert (C : (inject_Z (truncate q) + 1 <= inject_Z (truncate p))%Q).
  { change 1%Q with (inject_Z 1).
    rewrite <- (inject_Z_plus (truncate q) 1), <- Zle_Qle. lia. }
  destruct (Qlt_le_dec p 0) as [Hp | Hp], (Qlt_le_dec q 0) as [Hq | Hq].
  - destruct (truncate_neg p Hp), (truncate_neg q Hq). lra.
  - pose proof (proj2 (truncate_sign p) ltac:(lra)).
    pose proof (proj1 (truncate_sign q) Hq). lia.
  - lra.
  - destruct (truncate_nonneg p Hp), (truncate_nonneg q Hq). lra.
Qed.

Lemma truncate_integer (q : Q) (z : Z) :
  (q == inject_Z z)%Q -> truncate q = z.
Proof.
  intros E. destruct (Qlt_le_dec q 0) as [Hq | Hq].
  - destruct (truncate_neg q Hq) as [A B].
    assert (L : (inject_Z z <= inject_Z (truncate q))%Q) by lra.
    assert (U : (inject_Z (truncate q) < inject_Z (z + 1))%Q)
      by (rewrite inject_Z_plus; change (inject_Z 1) with 1%Q; lra).
    rewrite <- Zle_Qle in L. rewrite <- Zlt_Qlt in U. lia.
  - destruct (truncate_nonneg q Hq) as [A B].
    assert (L : (inject_Z (truncate q) <= inject_Z z)%Q) by lra.
    assert (U : (inject_Z z < inject_Z (truncate q + 1))%Q)
      by (rewrite inject_Z_plus; change (inject_Z 1) with 1%Q; lra).
    rewrite <- Zle_Qle in L. rewrite <- Zlt_Qlt in U. lia.
Qed.

Lemma clamp_monotone (p q : Q) : (p <= q)%Q -> (clamp p <= clamp q)%Q.
Proof.
  intros H. unfold clamp.
  destruct (Qle_bool 1 p) eqn:P1, (Qle_bool 1 q) eqn:Q1,
    (Qle_bool (-1) p) eqn:P2, (Qle_bool (-1) q) eqn:Q2;
    repeat match goal with
    | E : Qle_bool _ _ = true |- _ => apply Qle_bool_iff in E
    | E : Qle_bool ?a ?b = false |- _ =>
        assert (~ (a <= b)%Q) by (rewrite <- Qle_bool_iff; congruence);
        clear E
    end; lra.
Qed.

Lemma scale_monotone (p q : Q) : (p <= q)%Q -> (scale p <= scale q)%Q.
Proof.
  intros H. unfold scale.
  destruct (Qle_bool 0 p) eqn:P0, (Qle_bool 0 q) eqn:Q0;
    repeat match goal with
    | E : Qle_bool _ _ = true |- _ => apply Qle_bool_iff in E
    | E : Qle_bool ?a ?b = false |- _ =>
        assert (~ (a <= b)%Q) by (rewrite <- Qle_bool_iff; congruence);
        clear E
    end; lra.
Qed.

(** X11. The encoder of [createPcmBlob] is monotone on finite samples (a
    greater sample never encodes to a smaller value), keeps the sign,
    and saturates: every sample at or above 1 and +Infinity encode to
    32767, every sample at or below -1 and -Infinity to -32768, and NaN
    to 0. *)
Theorem encodeSample_monotone_saturating :
  (forall p q, (p <= q)%Q ->
     (encodeSample (Finite p) <= encodeSample (Finite q))%Z)
  /\ (forall q, (0 <= q)%Q -> (0 <= encodeSample (Finite q))%Z)
  /\ (forall q, (q <= 0)%Q -> (encodeSample (Finite q) <= 0)%Z)
  /\ (forall q, (1 <= q)%Q -> encodeSample (Finite q) = 32767%Z)
  /\ (forall q, (q <= -1)%Q -> encodeSample (Finite q) = (-32768)%Z)
  /\ encodeSample PosInfinity = 32767%Z
  /\ encodeSample NegInfinity = (-32768)%Z
  /\ encodeSample NaN = 0%Z.
Proof.
  repeat split.
  - intros p q H. rewrite !encodeSample_spec. cbn [spec_encode].
    apply truncate_monotone, scale_monotone, clamp_monotone, H.
  - intros q H. rewrite encodeSample_spec. cbn [spec_encode].
    apply truncate_sign.
    assert (scale 0 <= scale (clamp q))%Q
      by (apply scale_monotone; change 0%Q with (clamp 0);
          apply clamp_monotone, H).
    exact H0.
  - intros q H. rewrite encodeSample_spec. cbn [spec_encode].
    apply truncate_sign.
    assert (scale (clamp q) <= scale 0)%Q
      by (apply scale_monotone; change 0%Q with (clamp 0);
          apply clamp_monotone, H).
    exact H0.
  - intros q H. rewrite encodeSample_spec. cbn [spec_encode].
    unfold clamp. apply Qle_bool_iff in H. rewrite H. reflexivity.
  - intros q H. rewrite encodeSample_spec. cbn [spec_encode].
    apply truncate_integer.
    assert (L : (scale (clamp q) <= scale (clamp (-1)))%Q)
      by (apply scale_monotone, clamp_monotone, H).
    assert (U : (scale (-1) <= scale (clamp q))%Q)
      by (apply scale_monotone, clamp_bounds).
    change (scale (clamp (-1))) with ((-1) * 32768)%Q in L.
    change (scale (-1)) with ((-1) * 32768)%Q in U.
    change (inject_Z (-32768)) with (-32768)%Q. lra.
Qed.

(** ** Entry ids *)

Lemma toString_inj (n n' : N) : toString n = toString n' -> n = n'.
Proof.
  unfold toString. intros E. apply DecimalN.Unsigned.to_uint_inj.
  assert (H : Some (N.to_uint n) = Some (N.to_uint n'))
    by (rewrite <- !NilEmpty.usu, E; reflexivity).
  inversion H. reflexivity.
Qed.

(** X12. Two entries built from the wall clock have the same id exactly
    when they were made in the same millisecond: entries made at
    different readings of [Date.now()] never share an id. *)
Theorem logEntry_id_same_millisecond (now now' : N)
  (source source' : LogSource) (message message' : string) :
  log_id (logEntry now source message)
  = log_id (logEntry now' source' message')
  <-> now = now'.
Proof.
  cbn [logEntry log_id]. split; [apply toString_inj | intros ->; reflexivity].
Qed.

(** ** Connecting, failing and toggling *)

Section Connection.

Context {T : Type} {clock : Clock T}.

Lemma logged_app (es es' : list (@Effect T)) :
  logged (es ++ es') = logged es ++ logged es'.
Proof. apply flat_map_app. Qed.

Lemma logged_teardown (es : list (@Effect T)) :
  Forall (fun e => isTeardown e = true) es -> logged es = [].
Proof.
  induction 1 as [| e es He _ IH]; [reflexivity |].
  unfold logged in *. cbn [flat_map]. rewrite IH.
  destruct e; try discriminate; reflexivity.
Qed.

Lemma disconnect_cleared (stop : AudioBufferSourceNode -> Outcome unit)
  (st : @LiveClient T) :
  let st' := fst (disconnect stop st) in
  ai st' = false /\ inputAudioContext st' = None
  /\ outputAudioContext st' = None /\ currentSession st' = None
  /\ sources st' = [] /\ processor st' = false /\ inputSource st' = None.
Proof. unfold disconnect. cbn. repeat split. Qed.

Lemma disconnect_closes (stop : AudioBufferSourceNode -> Outcome unit)
  (st : @LiveClient T) :
  (forall c, inputAudioContext st = Some c ->
             In (ContextClose c) (snd (disconnect stop st)))
  /\ (forall c, outputAudioContext st = Some c ->
                In (ContextClose c) (snd (disconnect stop st))).
Proof.
  unfold disconnect. cbn [stopAllAudio snd processor inputSource
    inputAudioContext outputAudioContext].
  split; intros c ->; rewrite !in_app_iff; cbn; tauto.
Qed.

(** A failed [connect], part by part: the setup steps made before the
    failure, the [catch] block, and the teardown of the fields as they
    were by then. *)
Lemma connect_failure_parts (env : ConnectEnv T)
  (stop : AudioBufferSourceNode -> Outcome unit) (now : N)
  (st : @LiveClient T) (m : string) :
  connectFailure env = Some m ->
  exists made st1,
    connect env stop now st
    = (fst (disconnect stop st1),
       (OnStateChange CONNECTING :: made)
       ++ [ConsoleError "Connection failed"; OnStateChange ERROR;
           OnLog (logEntry now from_error (orElse m "Connection failed"))]
       ++ snd (disconnect stop st1))
    /\ Forall (fun e => loggedBy e = [] /\ e <> LiveConnect) made
    /\ (forall cin, newGoogleGenAI env = Returns tt ->
                    newInputContext env = Returns cin ->
                    inputAudioContext st1 = Some (asContext cin))
    /\ (forall cin cout, newGoogleGenAI env = Returns tt ->
                         newInputContext env = Returns cin ->
                         newOutputContext env = Returns cout ->
                         outputAudioContext st1 = Some (asContext cout)).
Proof.
  unfold connectFailure, connect, connect_begin, connect_setup,
    connect_resume, connect_catch.
  intros H.
  destruct (newGoogleGenAI env) as [[] | m1].
  2: { inversion H; subst. eexists [], st.
       destruct (disconnect stop st) as [st' torn].
       split; [reflexivity |]. split; [constructor |].
       split; intros; discriminate. }
  destruct (newInputContext env) as [cin | m2].
  2: { inversion H; subst. eexists [NewAudioContext 16000], (withAi true st).
       destruct (disconnect stop (withAi true st)) as [st' torn].
       split; [reflexivity |].
       split; [repeat constructor; discriminate |].
       split; intros; discriminate. }
  destruct (newOutputContext env) as [cout | m3].
  2: { inversion H; subst.
       eexists [NewAudioContext 16000; NewAudioContext 24000],
         (withInputContext (asContext cin) (withAi true st)).
       destruct (disconnect stop
                   (withInputContext (asContext cin) (withAi true st)))
         as [st' torn].
       split; [reflexivity |].
       split; [repeat constructor; discriminate |].
       split; [intros c _ E; inversion E; reflexivity |].
       intros; discriminate. }
  destruct (getUserMedia env) as [stream | m4]; [discriminate |].
  inversion H; subst.
  eexists [NewAudioContext 16000; NewAudioContext 24000; GetUserMedia],
    (withOutputContext (asContext cout)
       (withInputContext (asContext cin) (withAi true st))).
  destruct (disconnect stop
              (withOutputContext (asContext cout)
                 (withInputContext (asContext cin) (withAi true st))))
    as [st' torn].
  split; [reflexivity |].
  split; [repeat constructor; discriminate |].
  split; [intros c _ E; inversion E; reflexivity |].
  intros c c' _ _ E. inversion E. reflexivity.
Qed.

(** X13. When a constructor or the microphone request of [connect]
    throws with message [m]: no transport is opened; exactly one entry
    is logged, an error entry with [m] (or "Connection failed" when [m]
    is empty); the presentation layer ends in the Error state; every
    audio context this call had made is closed; and the client is left
    with no context, no session handle and no live source. *)
Theorem connect_failure (env : ConnectEnv T)
  (stop : AudioBufferSourceNode -> Outcome unit) (now : N)
  (st : @LiveClient T) (m : string) :
  connectFailure env = Some m ->
  let st' := fst (connect env stop now st) in
  let es := snd (connect env stop now st) in
  ~ In LiveConnect es
  /\ logged es
     = [{| log_id := toString now;
           log_timestamp := now;
           log_source := from_error;
           log_message := if String.eqb m "" then "Connection failed" else m;
           log_type := None |}]
  /\ (forall app, connectionState (callbacks app es) = ERROR)
  /\ (forall cin, newGoogleGenAI env = Returns tt ->
                  newInputContext env = Returns cin ->
                  In (ContextClose (asContext cin)) es)
  /\ (forall cin cout, newGoogleGenAI env = Returns tt ->
                       newInputContext env = Returns cin ->
                       newOutputContext env = Returns cout ->
                       In (ContextClose (asContext cout)) es)
  /\ (ai st' = false /\ inputAudioContext st' = None
      /\ outputAudioContext st' = None /\ currentSession st' = None
      /\ sources st' = [] /\ processor st' = false /\ inputSource st' = None).
Proof.
  intros H st' es.
  destruct (connect_failure_parts env stop now st m H)
    as (made & st1 & E & Hm & Hin & Hout).
  subst st' es. rewrite E. cbn [fst snd].
  pose proof (disconnect_teardown stop st1) as TD.
  destruct (disconnect_closes stop st1) as [Ci Co].
  assert (Lm : logged made = []).
  { clear -Hm. induction Hm as [| e l [He _] _ IH]; [reflexivity |].
    unfold logged in *. cbn. rewrite He, IH. reflexivity. }
  split; [| split; [| split; [| split; [| split]]]].
  - rewrite !in_app_iff. cbn [In]. intros [[D | D] | [D | D]].
    + discriminate.
    + rewrite Forall_forall in Hm. exact (proj2 (Hm _ D) eq_refl).
    + destruct D as [D | [D | [D | []]]]; discriminate.
    + rewrite Forall_forall in TD. specialize (TD _ D). discriminate.
  - rewrite !logged_app, (logged_teardown _ TD).
    change (logged (OnStateChange CONNECTING :: made)) with (logged made).
    rewrite Lm. reflexivity.
  - intros app. rewrite !callbacks_app, (callbacks_teardown _ _ TD).
    reflexivity.
  - intros cin H1 H2. rewrite !in_app_iff. right. right.
    apply Ci, (Hin cin H1 H2).
  - intros cin cout H1 H2 H3. rewrite !in_app_iff. right. right.
    apply Co, (Hout cin cout H1 H2 H3).
  - apply disconnect_cleared.
Qed.

(** X14. If [disconnect] runs while [connect] waits for the microphone,
    then when the microphone is granted [connect] opens no transport: it
    fails on the cleared client, logs the error entry "Cannot read
    properties of null (reading 'live')", and leaves the presentation
    layer in the Error state, with the client's fields as [disconnect]
    left them. *)
Theorem connect_resumed_after_disconnect (env : ConnectEnv T)
  (stop stop' : AudioBufferSourceNode -> Outcome unit) (now : N)
  (st : @LiveClient T) (stream : nat) :
  getUserMedia env = Returns stream ->
  let torn := fst (disconnect stop' st) in
  connect_resume env stop now torn
  = (torn,
     [ConsoleError "Connection failed"; OnStateChange ERROR;
      OnLog {| log_id := toString now;
               log_timestamp := now;
               log_source := from_error;
               log_message := "Cannot read properties of null (reading 'live')";
               log_type := None |};
      OnVolume (Level 0)])
  /\ forall app,
       connectionState
         (callbacks (setConnectionState DISCONNECTED app)
            (snd (connect_resume env stop now torn)))
       = ERROR.
Proof.
  intros H torn. subst torn. unfold connect_resume. rewrite H.
  destruct st as [a ic oc src pr nst srcs sess n].
  unfold disconnect, connect_catch. cbn. split; reflexivity.
Qed.

Lemma connect_success (env : ConnectEnv T)
  (stop : AudioBufferSourceNode -> Outcome unit) (now : N)
  (st : @LiveClient T) :
  connectFailure env = None ->
  exists cin cout,
    newInputContext env = Returns cin
    /\ newOutputContext env = Returns cout
    /\ connect env stop now st
       = (withSession (liveConnect env)
            (withOutputContext (asContext cout)
               (withInputContext (asContext cin) (withAi true st))),
          [OnStateChange CONNECTING; NewAudioContext 16000;
           NewAudioContext 24000; GetUserMedia; LiveConnect]).
Proof.
  unfold connectFailure, connect, connect_begin, connect_setup,
    connect_resume.
  destruct (newGoogleGenAI env) as [[] | m1]; [| discriminate].
  destruct (newInputContext env) as [cin | m2]; [| discriminate].
  destruct (newOutputContext env) as [cout | m3]; [| discriminate].
  destruct (getUserMedia env) as [stream | m4]; [| discriminate].
  intros _. exists cin, cout. repeat split.
Qed.

(** X15. In any state other than Disconnected, when the client has no
    session handle (as after a failed connection, which leaves the Error
    state), [handleSendText] does nothing with the text: it does not
    connect, logs nothing and sends nothing. *)
Theorem handleSendText_dropped (env : ConnectEnv T)
  (stop : AudioBufferSourceNode -> Outcome unit) (now now' : N)
  (text : string) (app : @App T) :
  connectionState app <> DISCONNECTED ->
  currentSession (initClient app) = None ->
  snd (handleSendText env stop now now' text app) = []
  /\ logs (fst (handleSendText env stop now now' text app)) = logs app
  /\ connectionState (fst (handleSendText env stop now now' text app))
     = connectionState app.
Proof.
  intros Hc Hs. unfold handleSendText.
  destruct (String.eqb text ""); [repeat split |].
  destruct (connectionState app) eqn:E; [congruence | | |];
    unfold sendText; rewrite Hs; cbn; rewrite E; repeat split.
Qed.

(** X16. From the Disconnected state, with a non-empty text, a setup in
    which nothing throws and a session that fulfils and accepts the
    send, [handleSendText] itself performs the connection setup and then
    logs the user's entry and sends the text once, in that order. *)
Theorem handleSendText_connects_then_sends (env : ConnectEnv T)
  (stop : AudioBufferSourceNode -> Outcome unit) (now now' : N)
  (text : string) (app : @App T) (session : Session) :
  connectionState app = DISCONNECTED ->
  text <> "" ->
  connectFailure env = None ->
  liveConnect env = Fulfilled session ->
  sendRealtimeInput_throws session = None ->
  snd (handleSendText env stop now now' text app)
  = [OnStateChange CONNECTING; NewAudioContext 16000; NewAudioContext 24000;
     GetUserMedia; LiveConnect;
     OnLog {| log_id := toString now;
              log_timestamp := now;
              log_source := from_user;
              log_message := text;
              log_type := None |};
     SendRealtimeInput
       {| data := arrayBufferToBase64 (TextEncoder_encode text);
          mimeType := "text/plain" |}].
Proof.
  intros Hc Ht Hf Hl Hs. unfold handleSendText.
  destruct (String.eqb text "") eqn:E;
    [apply String.eqb_eq in E; contradiction |].
  rewrite Hc.
  destruct (connect_success env stop now (initClient app) Hf)
    as (cin & cout & _ & _ & C).
  rewrite C. unfold sendText. cbn. rewrite Hl, Hs. reflexivity.
Qed.

(** X17. Pressing the button twice, from the Disconnected or the Error
    state and with a setup in which nothing throws: the first press
    leaves the presentation layer Connecting, the second Disconnected;
    the second press closes both audio contexts the first one made and
    leaves the client with no context, no session handle and no live
    source; and the log is as it was. *)
Theorem toggleConnection_twice (env env' : ConnectEnv T)
  (stop : AudioBufferSourceNode -> Outcome unit) (now now' : N)
  (app : @App T) :
  connectionState app = DISCONNECTED \/ connectionState app = ERROR ->
  connectFailure env = None ->
  let app1 := fst (toggleConnection env stop now app) in
  let app2 := fst (toggleConnection env' stop now' app1) in
  let es2 := snd (toggleConnection env' stop now' app1) in
  connectionState app1 = CONNECTING
  /\ connectionState app2 = DISCONNECTED
  /\ logs app2 = logs app
  /\ (forall cin, newInputContext env = Returns cin ->
                  In (ContextClose (asContext cin)) es2)
  /\ (forall cout, newOutputContext env = Returns cout ->
                   In (ContextClose (asContext cout)) es2)
  /\ exists c,
       clientRef app2 = Some c
       /\ inputAudioContext c = None /\ outputAudioContext c = None
       /\ currentSession c = None /\ sources c = [].
Proof.
  intros Hc Hf app1 app2 es2.
  destruct (connect_success env stop now (initClient app) Hf)
    as (cin & cout & Ei & Eo & C).
  assert (E1 : toggleConnection env stop now app
               = (callbacks
                    (setClient
                       (withSession (liveConnect env)
                          (withOutputContext (asContext cout)
                             (withInputContext (asContext cin)
                                (withAi true (initClient app))))) app)
                    [OnStateChange CONNECTING; NewAudioContext 16000;
                     NewAudioContext 24000; GetUserMedia; LiveConnect],
                  [OnStateChange CONNECTING; NewAudioContext 16000;
                   NewAudioContext 24000; GetUserMedia; LiveConnect])).
  { unfold toggleConnection. destruct Hc as [-> | ->]; rewrite C; reflexivity. }
  subst app1 app2 es2. rewrite E1. cbn [fst].
  unfold callbacks at 1 2 3 4 5 6. cbn [fold_left callback setConnectionState
    setClient connectionState clientRef logs lastToolAction].
  set (c1 := withSession _ _).
  unfold toggleConnection.
  cbn [connectionState clientRef setConnectionState setClient].
  pose proof (disconnect_teardown stop c1) as TD.
  destruct (disconnect_closes stop c1) as [Ci Co].
  pose proof (disconnect_cleared stop c1) as Cl. cbv zeta in Cl.
  destruct (disconnect stop c1) as [c' torn]. cbn [fst snd] in *.
  rewrite (callbacks_teardown _ _ TD).
  cbn [setConnectionState setClient connectionState clientRef logs].
  split; [reflexivity |]. split; [reflexivity |]. split; [reflexivity |].
  split; [| split].
  - intros c E. rewrite Ei in E. inversion E; subst. apply Ci. reflexivity.
  - intros c E. rewrite Eo in E. inversion E; subst. apply Co. reflexivity.
  - exists c'. tauto.
Qed.

End Connection.

(** ** After a teardown *)

Section AfterTeardown.

Context {T : Type} {clock : Clock T}.

(** X18. If the transport opens after [disconnect] (which does not close
    it), [onopen] still announces Connected and logs "Connected to
    Aryan.", but starts no capture: the client's fields stay as
    [disconnect] left them. *)
Theorem onopen_after_disconnect
  (stop : AudioBufferSourceNode -> Outcome unit) (st : @LiveClient T)
  (stream : nat) (now : N) :
  onopen stream now (fst (disconnect stop st))
  = (fst (disconnect stop st),
     [OnStateChange CONNECTED;
      OnLog {| log_id := toString now;
               log_timestamp := now;
               log_source := from_system;
               log_message := "Connected to Aryan.";
               log_type := None |}])
  /\ forall app,
       connectionState
         (callbacks app (snd (onopen stream now (fst (disconnect stop st)))))
       = CONNECTED.
Proof.
  destruct st as [a ic oc src pr nst srcs sess n].
  unfold onopen, startAudioInput, disconnect. cbn. split; reflexivity.
Qed.

(** X19. [connect] does not reset the next free time. After a
    [disconnect] with an output context and a [connect] in which nothing
    throws, the next free time is still the old context's clock at the
    teardown; a buffer that arrives while the new context's clock has
    not reached that value starts at the old value, not at the new
    clock. *)
Theorem nextStartTime_survives_reconnect (env : ConnectEnv T)
  (stop stop' : AudioBufferSourceNode -> Outcome unit) (now : N)
  (st : @LiveClient T) (ctx : AudioContext) :
  outputAudioContext st = Some ctx ->
  connectFailure env = None ->
  let st2 := fst (connect env stop' now (fst (disconnect stop st))) in
  nextStartTime st2 = currentTime ctx
  /\ forall reading b,
       t_le reading (currentTime ctx) ->
       starts (snd (schedule (reading, b) st2))
       = [(currentTime ctx, duration b)].
Proof.
  intros Hc Hf st2.
  destruct (connect_success env stop' now (fst (disconnect stop st)) Hf)
    as (cin & cout & _ & _ & C).
  subst st2. rewrite C. cbn [fst].
  destruct st as [a ic oc src pr nst srcs sess n].
  cbn [outputAudioContext] in Hc. subst oc.
  unfold disconnect, schedule, playAudio, tick. cbn.
  split; [reflexivity |]. intros reading b Hle.
  unfold t_le in Hle. rewrite Hle. reflexivity.
Qed.

End AfterTeardown.

(** ** Instances of the further properties on the sample session *)

Lemma playAudio_then_onended_witness :
  wellFormed playingClient
  /\ outputAudioContext playingClient <> None
  /\ sources (fst (playAudio {| buf_length := 24000; buf_sampleRate := 24000 |}
                     playingClient))
     = sources playingClient
       ++ [{| node := created playingClient;
              buffer := {| buf_length := 24000; buf_sampleRate := 24000 |} |}].
Proof.
  assert (W : wellFormed playingClient)
    by (apply wellFormed_scheduleAll; split; constructor).
  assert (C : outputAudioContext playingClient <> None)
    by (vm_compute; discriminate).
  split; [exact W |]. split; [exact C |].
  exact (proj1 (playAudio_then_onended
                  {| buf_length := 24000; buf_sampleRate := 24000 |}
                  playingClient W C)).
Defined.

Lemma scheduleAll_back_to_back_witness :
  outputAudioContext connectedClient <> None
  /\ Backlogged (nextStartTime connectedClient)
       [(0, {| buf_length := 24000; buf_sampleRate := 24000 |});
        (1 # 2, {| buf_length := 12000; buf_sampleRate := 24000 |})]
  /\ starts (snd (scheduleAll
                    [(0, {| buf_length := 24000; buf_sampleRate := 24000 |});
                     (1 # 2, {| buf_length := 12000;
                                buf_sampleRate := 24000 |})]
                    connectedClient))
     = backToBack (nextStartTime connectedClient)
         [{| buf_length := 24000; buf_sampleRate := 24000 |};
          {| buf_length := 12000; buf_sampleRate := 24000 |}].
Proof.
  assert (C : outputAudioContext connectedClient <> None)
    by (vm_compute; discriminate).
  assert (B : Backlogged (nextStartTime connectedClient)
                [(0, {| buf_length := 24000; buf_sampleRate := 24000 |});
                 (1 # 2, {| buf_length := 12000; buf_sampleRate := 24000 |})])
    by (vm_compute; repeat split).
  split; [exact C |]. split; [exact B |].
  exact (proj1 (scheduleAll_back_to_back _ connectedClient C B)).
Defined.

Lemma scheduleAll_never_moves_back_witness :
  t_le (nextStartTime playingClient)
    (nextStartTime
       (fst (scheduleAll
               [(7, {| buf_length := 24000; buf_sampleRate := 24000 |})]
               playingClient))).
Proof.
  exact (proj1 (scheduleAll_never_moves_back
                  [(7, {| buf_length := 24000; buf_sampleRate := 24000 |})]
                  playingClient)).
Defined.

Lemma handleMessage_without_interruption_witness :
  interrupted audioMessage = false
  /\ forall s,
       ~ In (SourceStop s)
           (snd (handleMessage_resume stopReturns sampleBrowser 2000
                   audioMessage (Some (decodeOneSecond "AAD/fwCA"))
                   playingClient)).
Proof.
  split; [reflexivity |].
  exact (proj1 (handleMessage_without_interruption stopReturns sampleBrowser
                  2000 audioMessage (Some (decodeOneSecond "AAD/fwCA"))
                  playingClient eq_refl)).
Defined.

Lemma handleToolCall_in_order_witness :
  currentSession connectedClient
  = Some (Fulfilled {| sendRealtimeInput_throws := None;
                       sendToolResponse_throws := None |})
  /\ snd (handleToolCall sampleBrowser 2000 connectedClient
            [timeCall; bareCall])
     = [SendToolResponse "call-1" "getSystemTime"
          (Time "11/2/2026, 9:00:00 AM");
        SendToolResponse "call-2" "openWebsite"
          (Error "Cannot read properties of undefined (reading 'url')")].
Proof.
  split; [reflexivity |].
  exact (proj1 (handleToolCall_in_order sampleBrowser 2000 connectedClient
                  {| sendRealtimeInput_throws := None;
                     sendToolResponse_throws := None |}
                  [timeCall; bareCall] eq_refl eq_refl)).
Defined.

Lemma handleFunctionCall_without_args_witness :
  fc_args bareCall = None
  /\ handleFunctionCall sampleBrowser 2000 connectedClient bareCall
     = ([OnLog (toolLog 2000 bareCall)],
        [SendToolResponse "call-2" "openWebsite"
           (Error "Cannot read properties of undefined (reading 'url')")]).
Proof.
  split; [reflexivity |].
  exact (handleFunctionCall_without_args sampleBrowser 2000 connectedClient
           {| sendRealtimeInput_throws := None;
              sendToolResponse_throws := None |}
           bareCall eq_refl (or_introl eq_refl) eq_refl eq_refl).
Defined.

Lemma openWebsite_without_url_witness :
  fc_args emptyCall = Some []
  /\ runTool (T:=Q) sampleBrowser emptyCall
     = ([WindowOpen "undefined"; OnToolAction "Opened undefined"],
        Returns (Result "Opened undefined")).
Proof.
  split; [reflexivity |].
  exact (openWebsite_without_url sampleBrowser emptyCall [] eq_refl eq_refl
           (fun v (H : In ("url", v) []) => H) eq_refl).
Defined.

Lemma setScreenMode_theme_witness :
  fc_args blueCall = Some [("mode", "blue")]
  /\ themeAfter true
       (fst (handleFunctionCall sampleBrowser 2000 connectedClient blueCall))
     = false.
Proof.
  split; [reflexivity |].
  exact (proj1 (setScreenMode_theme sampleBrowser 2000 connectedClient
                  blueCall [("mode", "blue")] true connectedApp
                  eq_refl eq_refl eq_refl)).
Defined.

Lemma no_session_no_send_witness :
  currentSession disconnectedClient = None
  /\ Forall (fun e => isSend e = false)
       (snd (handleMessage decodeOneSecond stopReturns sampleBrowser 2000
               toolMessage disconnectedClient)).
Proof.
  split; [reflexivity |].
  exact (proj2 (proj2 (no_session_no_send disconnectedClient
                         (fun session (H : None = Some (Fulfilled session)) =>
                            eq_ind None
                              (fun o => match o with
                                        | None => True
                                        | Some _ => False
                                        end) I _ H)))
           decodeOneSecond stopReturns sampleBrowser 2000%N toolMessage).
Defined.

Lemma connect_failure_witness :
  connectFailure deniedEnv = Some "Permission denied"
  /\ logged (snd (connect deniedEnv stopReturns 1000 connectedClient))
     = [{| log_id := "1000";
           log_timestamp := 1000;
           log_source := from_error;
           log_message := "Permission denied";
           log_type := None |}].
Proof.
  split; [reflexivity |].
  exact (proj1 (proj2 (connect_failure deniedEnv stopReturns 1000
                         connectedClient "Permission denied" eq_refl))).
Defined.

Lemma connect_resumed_after_disconnect_witness :
  getUserMedia sampleEnv = Returns 1%nat
  /\ forall app : @App Q,
       connectionState
         (callbacks (setConnectionState DISCONNECTED app)
            (snd (connect_resume sampleEnv stopReturns 1002
                    (fst (disconnect stopReturns
                            (fst (fst (connect_begin sampleEnv stopReturns
                                         1000 newLiveClient))))))))
       = ERROR.
Proof.
  split; [reflexivity |].
  exact (proj2 (connect_resumed_after_disconnect sampleEnv stopReturns
                  stopReturns 1002
                  (fst (fst (connect_begin sampleEnv stopReturns 1000
                               newLiveClient)))
                  1%nat eq_refl)).
Defined.

Lemma handleSendText_dropped_witness :
  connectionState failedApp = ERROR
  /\ currentSession (initClient failedApp) = None
  /\ snd (handleSendText sampleEnv stopReturns 2000 2001 "hello" failedApp)
     = [].
Proof.
  split; [reflexivity |]. split; [reflexivity |].
  exact (proj1 (handleSendText_dropped sampleEnv stopReturns 2000 2001
                  "hello" failedApp
                  (fun H : ERROR = DISCONNECTED =>
                     eq_ind ERROR
                       (fun s => match s with
                                 | ERROR => True
                                 | _ => False
                                 end) I _ H)
                  eq_refl)).
Defined.

Lemma handleSendText_connects_then_sends_witness :
  connectionState (@initialApp Q) = DISCONNECTED
  /\ connectFailure sampleEnv = None
  /\ List.length
       (snd (handleSendText sampleEnv stopReturns 1000 1001 "hello"
               initialApp))
     = 7%nat.
Proof.
  split; [reflexivity |]. split; [reflexivity |].
  rewrite (handleSendText_connects_then_sends sampleEnv stopReturns 1000 1001
             "hello" initialApp
             {| sendRealtimeInput_throws := None;
                sendToolResponse_throws := None |}
             eq_refl
             (fun H : "hello" = "" =>
                eq_ind "hello"
                  (fun s => match s with
                            | EmptyString => False
                            | String _ _ => True
                            end) I _ H)
             eq_refl eq_refl eq_refl).
  reflexivity.
Defined.

Lemma toggleConnection_twice_witness :
  connectionState (@initialApp Q) = DISCONNECTED
  /\ connectFailure sampleEnv = None
  /\ connectionState
       (fst (toggleConnection sampleEnv stopReturns 1003
               (fst (toggleConnection sampleEnv stopReturns 1000
                       initialApp))))
     = DISCONNECTED.
Proof.
  split; [reflexivity |]. split; [reflexivity |].
  exact (proj1 (proj2 (toggleConnection_twice sampleEnv sampleEnv stopReturns
                         1000 1003 initialApp (or_introl eq_refl) eq_refl))).
Defined.

Lemma nextStartTime_survives_reconnect_witness :
  outputAudioContext (tick 6 playingClient)
  = Some {| sampleRate := 24000; currentTime := 6 |}
  /\ connectFailure sampleEnv = None
  /\ nextStartTime
       (fst (connect sampleEnv stopReturns 3000
               (fst (disconnect stopReturns (tick 6 playingClient)))))
     = 6.
Proof.
  split; [reflexivity |]. split; [reflexivity |].
  exact (proj1 (nextStartTime_survives_reconnect sampleEnv stopReturns
                  stopReturns 3000 (tick 6 playingClient)
                  {| sampleRate := 24000; currentTime := 6 |}
                  eq_refl eq_refl)).
Defined.
